(** * scrape-fsworld.py: a shallow embedding and its checked properties

    The script fetches the event listings of two Formula Student series,
    walks every event page, decodes the result table into [TeamData]
    records and writes one CSV file per event and one summary per series.

    What is modelled
    - Python strings as [string] (sequences of one-byte characters), with
      [rstrip], [lower], [in] and [split(sep, 1)] written out.
    - The BeautifulSoup tree as the inductive [node]; the queries the
      script uses ([text], [find], [find_all], [next_sibling],
      [find_next_sibling], attribute access) are functions over it.
    - The builtins [int] and [float] and the outside world (the web site,
      how long a request or a sleep takes) are interfaces: every theorem
      holds for each implementation of them.
    - The module-level loop as a state-and-exception monad over [State]:
      an exception keeps the state reached when it was raised, as in
      Python. *)

From Stdlib Require Import String Ascii List ZArith QArith Lia Lqa Bool.
From stdpp Require Import base option gmap strings pretty.
Import ListNotations.
Set Warnings "-register-all".
Local Open Scope string_scope.
Local Open Scope list_scope.

(** ** Python string methods *)

Module Str.

(** [s.rstrip(ch)] for a one-character [ch]: every trailing [ch] goes. *)
Fixpoint rstrip (ch : ascii) (s : string) : string :=
  match s with
  | EmptyString => EmptyString
  | String c rest =>
      match rstrip ch rest with
      | EmptyString => if Ascii.eqb c ch then EmptyString else String c EmptyString
      | r => String c r
      end
  end.

Definition lower_char (c : ascii) : ascii :=
  let n := nat_of_ascii c in
  if (65 <=? n)%nat && (n <=? 90)%nat then ascii_of_nat (n + 32) else c.

(** [s.lower()] on the ASCII letters. *)
Fixpoint lower (s : string) : string :=
  match s with
  | EmptyString => EmptyString
  | String c rest => String (lower_char c) (lower rest)
  end.

(** [s.find(sub)]: index of the first occurrence. *)
Fixpoint find (sub s : string) : option nat :=
  if String.prefix sub s then Some 0%nat
  else match s with
       | EmptyString => None
       | String _ rest => option_map S (find sub rest)
       end.

(** [sub in s]. *)
Definition contains (sub s : string) : bool :=
  match find sub s with Some _ => true | None => false end.

Fixpoint drop (n : nat) (s : string) : string :=
  match n, s with
  | O, _ => s
  | S _, EmptyString => EmptyString
  | S k, String _ rest => drop k rest
  end.

(** [s.partition(sep)] when [sep] occurs: the text before the first
    occurrence and the text after it. *)
Fixpoint cut (sep s : string) : option (string * string) :=
  if String.prefix sep s then Some (EmptyString, drop (String.length sep) s)
  else match s with
       | EmptyString => None
       | String c rest =>
           match cut sep rest with
           | Some (a, b) => Some (String c a, b)
           | None => None
           end
       end.

(** [s.split(sep, 1)] for a non-empty [sep]: at most one split, at the
    first occurrence. *)
Definition split1 (sep s : string) : list string :=
  match cut sep s with
  | Some (a, b) => [a; b]
  | None => [s]
  end.

(** [sep.join(l)]. *)
Fixpoint join (sep : string) (l : list string) : string :=
  match l with
  | [] => EmptyString
  | [x] => x
  | x :: rest => x +:+ sep +:+ join sep rest
  end.

End Str.

(** ** Exceptions and results *)

Inductive exn : Type :=
| AssertionError
| ValueError (msg : string)
| KeyError (key : string)
| TypeError
| NameError (name : string)
| AttributeError
| ConnectionError.

Inductive result (A : Type) : Type :=
| Ok (a : A)
| Raise (e : exn).
Arguments Ok {A} a.
Arguments Raise {A} e.

#[global] Instance result_ret : MRet result := fun A a => Ok a.

#[global] Instance result_bind : MBind result := fun A B k r =>
  match r with
  | Ok a => k a
  | Raise e => Raise e
  end.

Definition from_option {A} (e : exn) (o : option A) : result A :=
  match o with Some a => Ok a | None => Raise e end.

(** ** The document tree of bs4 *)

(** An attribute value is a string, or a list of strings for the
    multi-valued attributes ([class], [rel], ...). *)
Inductive attr_value : Type :=
| AStr (s : string)
| AList (l : list string).

Inductive node : Type :=
| Tag (name : string) (attrs : list (string * attr_value)) (children : list node)
| NavigableString (s : string)
| Comment (s : string).

Module Bs4.

Fixpoint attr_get (key : string) (attrs : list (string * attr_value)) : option attr_value :=
  match attrs with
  | [] => None
  | (k, v) :: rest => if String.eqb k key then Some v else attr_get key rest
  end.

Definition is_tag (n : node) : bool :=
  match n with Tag _ _ _ => true | _ => false end.

(** [tag.has_attr(key)] *)
Definition has_attr (key : string) (n : node) : bool :=
  match n with
  | Tag _ attrs _ => match attr_get key attrs with Some _ => true | None => false end
  | _ => false
  end.

(** [tag[key]] *)
Definition getitem (key : string) (n : node) : result attr_value :=
  match n with
  | Tag _ attrs _ => from_option (KeyError key) (attr_get key attrs)
  | _ => Raise TypeError
  end.

(** Every descendant in document order, each with the siblings that
    follow it under its parent. *)
Fixpoint located (n : node) : list (node * list node) :=
  match n with
  | Tag _ _ cs =>
      (fix go (l : list node) : list (node * list node) :=
         match l with
         | [] => []
         | c :: r => (c, r) :: located c ++ go r
         end) cs
  | _ => []
  end.

(** [tag.descendants] *)
Definition descendants (n : node) : list node := map fst (located n).

(** [tag.text]: the strings below the tag, comments left out. *)
Fixpoint text (n : node) : string :=
  match n with
  | Tag _ _ cs =>
      (fix go (l : list node) : string :=
         match l with
         | [] => EmptyString
         | c :: r => text c +:+ go r
         end) cs
  | NavigableString s => s
  | Comment _ => EmptyString
  end.

Definition named (name : string) (n : node) : bool :=
  match n with Tag nm _ _ => String.eqb nm name | _ => false end.

(** How a keyword filter such as [id="x"] or [class_="x"] matches an
    attribute value. *)
Definition value_matches (want : string) (v : attr_value) : bool :=
  match v with
  | AStr s => String.eqb s want
  | AList l => existsb (String.eqb want) l || String.eqb (Str.join " " l) want
  end.

Definition attr_is (key want : string) (n : node) : bool :=
  match n with
  | Tag _ attrs _ =>
      match attr_get key attrs with
      | Some v => value_matches want v
      | None => false
      end
  | _ => false
  end.

(** [tag.find_all(...)] and [tag.find(...)] with the filter as a predicate
    on tags. *)
Definition find_all (p : node -> bool) (n : node) : list node :=
  List.filter (fun d => is_tag d && p d) (descendants n).

Definition find (p : node -> bool) (n : node) : option node :=
  head (find_all p n).

(** [find_all] keeping each hit's following siblings, for [next_sibling]
    and [find_next_sibling]. *)
Definition find_all_located (p : node -> bool) (n : node) : list (node * list node) :=
  List.filter (fun d => is_tag (fst d) && p (fst d)) (located n).

Definition find_located (p : node -> bool) (n : node) : option (node * list node) :=
  head (find_all_located p n).

(** [tag.next_sibling], from the siblings that follow the tag. *)
Definition next_sibling (following : list node) : option node := head following.

(** [tag.find_next_sibling(...)], from the siblings that follow the tag. *)
Definition find_next_sibling (p : node -> bool) (following : list node) : option node :=
  head (List.filter (fun d => is_tag d && p d) following).

End Bs4.

(** ** The builtins [int] and [float]

    [pyfloat] is the type of Python's floats, [py_int s] is [int(s)] and
    [py_float s] is [float(s)]; [None] stands for the [ValueError] either
    raises on text it cannot read. *)

Class Builtins (pyfloat : Type) : Type := {
  py_int : string -> option Z;
  py_float : string -> option pyfloat
}.

(** ** Data model *)

Module CarKind.
Inductive t : Set := ELECTRIC | COMBUSTION | OTHER.
Definition name (k : t) : string :=
  match k with
  | ELECTRIC => "ELECTRIC"
  | COMBUSTION => "COMBUSTION"
  | OTHER => "OTHER"
  end.
End CarKind.

Module EventKind.
Inductive t : Set := ELECTRIC | COMBUSTION | MIXED.
Definition name (k : t) : string :=
  match k with
  | ELECTRIC => "ELECTRIC"
  | COMBUSTION => "COMBUSTION"
  | MIXED => "MIXED"
  end.
(** [str(kind)], as the f-string of the progress line prints it. *)
Definition str (k : t) : string := "EventKind." +:+ name k.
End EventKind.

Module PlacementData.
Record t (pyfloat : Type) : Type := make { place : Z; score : pyfloat }.
Arguments make {pyfloat} place score.
Arguments place {pyfloat} _.
Arguments score {pyfloat} _.
End PlacementData.

Definition DisciplineData (pyfloat : Type) : Type := option (PlacementData.t pyfloat).

Module TeamData.
Record t (pyfloat : Type) : Type := make {
  name : string;
  country : string;
  kind : CarKind.t;
  place : Z;
  cost : DisciplineData pyfloat;
  bp : DisciplineData pyfloat;
  ed : DisciplineData pyfloat;
  acc : DisciplineData pyfloat;
  sp : DisciplineData pyfloat;
  autox : DisciplineData pyfloat;
  endu : DisciplineData pyfloat;
  eff : DisciplineData pyfloat;
  pen : pyfloat;
  total : pyfloat
}.
Arguments make {pyfloat} name country kind place cost bp ed acc sp autox endu eff pen total.
Arguments name {pyfloat} _.
Arguments country {pyfloat} _.
Arguments kind {pyfloat} _.
Arguments place {pyfloat} _.
Arguments cost {pyfloat} _.
Arguments bp {pyfloat} _.
Arguments ed {pyfloat} _.
Arguments acc {pyfloat} _.
Arguments sp {pyfloat} _.
Arguments autox {pyfloat} _.
Arguments endu {pyfloat} _.
Arguments eff {pyfloat} _.
Arguments pen {pyfloat} _.
Arguments total {pyfloat} _.
End TeamData.

Module EventData.
Record t (pyfloat : Type) : Type := make {
  id : Z;
  kind : EventKind.t;
  name : string;
  results : list (TeamData.t pyfloat)
}.
Arguments make {pyfloat} id kind name results.
Arguments id {pyfloat} _.
Arguments kind {pyfloat} _.
Arguments name {pyfloat} _.
Arguments results {pyfloat} _.
End EventData.

(** ** Decoding one table row *)

Section Decoding.
Context {pyfloat : Type} `{B : Builtins pyfloat}.

Definition int_of_str (s : string) : result Z :=
  from_option (ValueError "invalid literal for int() with base 10") (py_int s).

Definition float_of_str (s : string) : result pyfloat :=
  from_option (ValueError "could not convert string to float") (py_float s).

(** [extract_discipline_data(col)].  The [except KeyError] handler prints
    the cell and raises the same exception again; here it is the
    [KeyError] of [Bs4.getitem]. *)
Definition extract_discipline_data (col : node) : result (DisciplineData pyfloat) :=
  let text := Str.rstrip "." (Bs4.text col) in
  if String.eqb text "-" then Ok None
  else
    place ← int_of_str (Str.rstrip "." (Bs4.text col));
    tooltip ← from_option AssertionError (Bs4.find (Bs4.has_attr "title") col);
    title ← Bs4.getitem "title" tooltip;
    title ← match title with
              | AStr s => Ok s
              | AList _ => Raise AssertionError
              end;
    score ← float_of_str title;
    Ok (Some (PlacementData.make place score)).

(** [country, name = cols[0]["title"].split(" | ", 1)] *)
Definition country_name (col : node) : result (string * string) :=
  title ← Bs4.getitem "title" col;
  match title with
  | AStr s =>
      match Str.split1 " | " s with
      | [country; name] => Ok (country, name)
      | [_] => Raise (ValueError "not enough values to unpack (expected 2, got 1)")
      | _ => Raise (ValueError "too many values to unpack (expected 2)")
      end
  | AList _ => Raise AttributeError
  end.

(** [repr] of an attribute value, for the message of the car-kind error. *)
Definition attr_repr (v : attr_value) : string :=
  match v with
  | AStr s => s
  | AList l => "[" +:+ Str.join ", " (map (fun x => "'" +:+ x +:+ "'") l) +:+ "]"
  end.

(** The [if]/[elif] chain on [cols[11]["title"]]. *)
Definition car_kind (kind : attr_value) : result CarKind.t :=
  match kind with
  | AStr s =>
      if String.eqb s "electric" then Ok CarKind.ELECTRIC
      else if String.eqb s "combustion" then Ok CarKind.COMBUSTION
      else if String.eqb s "other" then Ok CarKind.OTHER
      else Raise (ValueError ("Unknown car kind: " +:+ s))
  | AList _ => Raise (ValueError ("Unknown car kind: " +:+ attr_repr kind))
  end.

(** The body of [for row in rows] below the header test. *)
Definition extract_team (row : node) : result (TeamData.t pyfloat) :=
  match Bs4.find_all (Bs4.named "td") row with
  | [c0; c1; c2; c3; c4; c5; c6; c7; c8; c9; c10; c11] =>
      cn ← country_name c0;
      place ← int_of_str (Str.rstrip "." (Bs4.text c1));
      cost ← extract_discipline_data c2;
      bp ← extract_discipline_data c3;
      ed ← extract_discipline_data c4;
      acc ← extract_discipline_data c5;
      sp ← extract_discipline_data c6;
      autox ← extract_discipline_data c7;
      endu ← extract_discipline_data c8;
      eff ← extract_discipline_data c9;
      pen ← float_of_str (Bs4.text c10);
      total ← float_of_str (Bs4.text c11);
      kind ← Bs4.getitem "title" c11;
      kind ← car_kind kind;
      Ok (TeamData.make (snd cn) (fst cn) kind place
            cost bp ed acc sp autox endu eff pen total)
  | _ => Raise AssertionError
  end.

(** [for row in rows]: header rows are skipped, every other row is
    decoded and appended; the first failure ends the loop. *)
Fixpoint extract_results (rows : list node) : result (list (TeamData.t pyfloat)) :=
  match rows with
  | [] => Ok []
  | row :: rest =>
      match Bs4.find (Bs4.named "th") row with
      | Some _ => extract_results rest
      | None =>
          team ← extract_team row;
          teams ← extract_results rest;
          Ok (team :: teams)
      end
  end.

End Decoding.

(** ** Event kind *)

(** What [event_info] holds after [event_info = event_info.lower()].  For
    a string sibling it is the lower-cased text.  For a tag sibling,
    [sibling.lower] is bs4's shorthand for [sibling.find("lower")]:
    calling [None] is a [TypeError], and calling a tag is [find_all()],
    a list of tags, which no string is [in]. *)
Inductive event_info : Type :=
| InfoStr (s : string)
| InfoTags.

Definition lower_info (sibling : node) : result event_info :=
  match sibling with
  | NavigableString s => Ok (InfoStr (Str.lower s))
  | Comment s => Ok (InfoStr (Str.lower s))
  | Tag _ _ _ =>
      match Bs4.find (Bs4.named "lower") sibling with
      | Some _ => Ok InfoTags
      | None => Raise TypeError
      end
  end.

Definition info_contains (pat : string) (i : event_info) : bool :=
  match i with
  | InfoStr s => Str.contains pat s
  | InfoTags => false
  end.

(** The [if]/[elif]/[elif] chain without [else]: [prev] is what the
    module-level variable [event_kind] held before ([None] when it was
    never assigned). *)
Definition classify (prev : option EventKind.t) (i : event_info) : option EventKind.t :=
  if info_contains "mixed event" i then Some EventKind.MIXED
  else if info_contains "pure electric" i then Some EventKind.ELECTRIC
  else if info_contains "pure combustion" i then Some EventKind.COMBUSTION
  else prev.

(** ** Output files *)

Section Files.
Context {pyfloat : Type}.

(** A value handed to [csv.DictWriter.writerow]. *)
Inductive cell : Type :=
| CStr (s : string)
| CInt (z : Z)
| CFloat (x : pyfloat)
| CNone.

(** A CSV file: the header row and the data rows, each in the order of
    [fieldnames]. *)
Record csv : Type := { fieldnames : list string; rows : list (list cell) }.

Definition place_cell (d : DisciplineData pyfloat) : cell :=
  match d with Some p => CInt (PlacementData.place p) | None => CNone end.

Definition score_cell (d : DisciplineData pyfloat) : cell :=
  match d with Some p => CFloat (PlacementData.score p) | None => CNone end.

Definition event_fieldnames : list string :=
  [ "name"; "country"; "kind"; "place";
    "cost_place"; "cost_score"; "bp_place"; "bp_score";
    "ed_place"; "ed_score"; "acc_place"; "acc_score";
    "sp_place"; "sp_score"; "autox_place"; "autox_score";
    "endu_place"; "endu_score"; "eff_place"; "eff_score";
    "pen"; "total" ].

Definition team_row (team : TeamData.t pyfloat) : list cell :=
  [ CStr (TeamData.name team); CStr (TeamData.country team);
    CStr (CarKind.name (TeamData.kind team)); CInt (TeamData.place team);
    place_cell (TeamData.cost team); score_cell (TeamData.cost team);
    place_cell (TeamData.bp team); score_cell (TeamData.bp team);
    place_cell (TeamData.ed team); score_cell (TeamData.ed team);
    place_cell (TeamData.acc team); score_cell (TeamData.acc team);
    place_cell (TeamData.sp team); score_cell (TeamData.sp team);
    place_cell (TeamData.autox team); score_cell (TeamData.autox team);
    place_cell (TeamData.endu team); score_cell (TeamData.endu team);
    place_cell (TeamData.eff team); score_cell (TeamData.eff team);
    CFloat (TeamData.pen team); CFloat (TeamData.total team) ].

Definition event_csv (results : list (TeamData.t pyfloat)) : csv :=
  {| fieldnames := event_fieldnames; rows := map team_row results |}.

Definition summary_fieldnames : list string := ["id"; "kind"; "name"; "teams"].

Definition summary_row (event : EventData.t pyfloat) : list cell :=
  [ CInt (EventData.id event);
    CStr (EventKind.name (EventData.kind event));
    CStr (EventData.name event);
    CInt (Z.of_nat (length (EventData.results event))) ].

Definition summary_csv (values : list (EventData.t pyfloat)) : csv :=
  {| fieldnames := summary_fieldnames; rows := map summary_row values |}.

End Files.

Arguments cell pyfloat : clear implicits.
Arguments csv pyfloat : clear implicits.

(** ** A Python [dict] with integer keys, in insertion order *)

Module Dict.
Section Dict.
Context {V : Type}.

Fixpoint get (k : Z) (d : list (Z * V)) : option V :=
  match d with
  | [] => None
  | (k', v) :: rest => if Z.eqb k' k then Some v else get k rest
  end.

(** [k in d] *)
Definition mem (k : Z) (d : list (Z * V)) : bool :=
  match get k d with Some _ => true | None => false end.

(** [d[k] = v]: a present key keeps its position, a new key goes last. *)
Fixpoint set (k : Z) (v : V) (d : list (Z * V)) : list (Z * V) :=
  match d with
  | [] => [(k, v)]
  | (k', v') :: rest =>
      if Z.eqb k' k then (k', v) :: rest else (k', v') :: set k v rest
  end.

(** [d.values()] *)
Definition values (d : list (Z * V)) : list V := map snd d.

End Dict.
End Dict.

(** ** The outside world

    [web n url] is the document the [n]-th request of the run receives
    for [url] ([None]: the transport fails); [request_time n] is how long
    that request takes and [oversleep n] how much longer than asked the
    sleep before it lasts.  Time is in seconds. *)

Class World : Type := {
  web : nat -> string -> option node;
  request_time : nat -> Q;
  oversleep : nat -> Q
}.

(** ** The state of a run *)

Record Scraper : Type := { min_pause : Q; last_request : Q }.

(** [Scraper()] *)
Definition Scraper_init : Scraper := {| min_pause := 1%Q; last_request := 0%Q |}.

Section Run.
Context {pyfloat : Type} `{B : Builtins pyfloat} `{W : World}.

Record State : Type := {
  clock : Q;                               (* what [time.time()] returns *)
  requests : list (string * Q * Q);        (* url, start and end of every request so far *)
  scraper : Scraper;
  events : list (Z * EventData.t pyfloat);
  event_kind : option EventKind.t;         (* the module-level variable *)
  files : gmap string (csv pyfloat);
  stdout : list string
}.

(** A computation of the script: it changes the state and returns a value
    or raises; the state reached is kept in both cases. *)
Definition M (A : Type) : Type := State -> State * result A.

#[global] Instance M_ret : MRet M := fun A a st => (st, Ok a).

#[global] Instance M_bind : MBind M := fun A B k m st =>
  match m st with
  | (st1, Ok a) => k a st1
  | (st1, Raise e) => (st1, Raise e)
  end.

Definition lift {A} (r : result A) : M A := fun st => (st, r).

Definition read {A} (f : State -> A) : M A := fun st => (st, Ok (f st)).

Definition print (line : string) : M unit := fun st =>
  ({| clock := clock st; requests := requests st; scraper := scraper st;
      events := events st; event_kind := event_kind st; files := files st;
      stdout := stdout st ++ [line] |}, Ok tt).

Definition set_event_kind (k : option EventKind.t) : M unit := fun st =>
  ({| clock := clock st; requests := requests st; scraper := scraper st;
      events := events st; event_kind := k; files := files st;
      stdout := stdout st |}, Ok tt).

(** [events[event_id] = event] *)
Definition events_set (event_id : Z) (event : EventData.t pyfloat) : M unit := fun st =>
  ({| clock := clock st; requests := requests st; scraper := scraper st;
      events := Dict.set event_id event (events st);
      event_kind := event_kind st; files := files st;
      stdout := stdout st |}, Ok tt).

(** [with open(path, "w") as fh: ...]: the file holds what this one
    block writes, whatever it held before. *)
Definition write_file (path : string) (content : csv pyfloat) : M unit := fun st =>
  ({| clock := clock st; requests := requests st; scraper := scraper st;
      events := events st; event_kind := event_kind st;
      files := <[path := content]> (files st);
      stdout := stdout st |}, Ok tt).

(** [Scraper.get(url)] *)
Definition get (url : string) : M node := fun st =>
  let self := scraper st in
  let n := length (requests st) in
  let now := clock st in
  let diff := (now - last_request self)%Q in
  let started :=
    if Qle_bool (min_pause self) diff then now
    else (now + (min_pause self - diff) + oversleep n)%Q in
  let ended := (started + request_time n)%Q in
  let st' :=
    {| clock := ended;
       requests := requests st ++ [(url, started, ended)];
       scraper := {| min_pause := min_pause self; last_request := started |};
       events := events st; event_kind := event_kind st; files := files st;
       stdout := stdout st |} in
  (st', from_option ConnectionError (web n url)).

Definition OUTPUT_DIR : string := "data".
Definition EVENT_DIR : string := OUTPUT_DIR +:+ "/events".

Definition event_path (event_id : Z) : string :=
  EVENT_DIR +:+ "/" +:+ pretty event_id +:+ ".csv".

Definition series_path (wrl_kind : string) : string :=
  OUTPUT_DIR +:+ "/" +:+ wrl_kind +:+ ".csv".

(** Lines 109 to 116: the one [h4], its text, and what follows it in
    lower case. *)
Definition event_heading (soup : node) : result (string * event_info) :=
  h4 ← match Bs4.find_all_located (Bs4.named "h4") soup with
       | [h] => Ok h
       | _ => Raise AssertionError
       end;
  let event_name := Bs4.text (fst h4) in
  sibling ← from_option AssertionError (Bs4.next_sibling (snd h4));
  info ← lower_info sibling;
  Ok (event_name, info).

(** Lines 125 to 128: the table after the element with id "results". *)
Definition results_table (soup : node) : result node :=
  results_header ← from_option AssertionError
                     (Bs4.find_located (Bs4.attr_is "id" "results") soup);
  from_option AssertionError
    (Bs4.find_next_sibling
       (fun t => Bs4.named "table" t && Bs4.attr_is "class" "wrl_table" t)
       (snd results_header)).

Definition event_url (url : string) (event_id : Z) : string :=
  url +:+ "/" +:+ pretty event_id.

(** Lines 106 to 178 of the script: fetch the event page and decode it.
    [event_kind] is assigned only when a pattern matches; the progress
    line then reads the variable, bound or not. *)
Definition read_event (wrl_kind url : string) (event_id : Z) : M (EventData.t pyfloat) :=
  soup ← get (event_url url event_id);
  heading ← lift (event_heading soup);
  let event_name := fst heading in
  prev ← read event_kind;
  set_event_kind (classify prev (snd heading));;
  bound ← read event_kind;
  kind ← lift (from_option (NameError "event_kind") bound);
  print (wrl_kind +:+ "/" +:+ pretty event_id +:+ ": " +:+ event_name
         +:+ " (" +:+ EventKind.str kind +:+ ")");;
  table ← lift (results_table soup);
  results ← lift (extract_results (Bs4.find_all (Bs4.named "tr") table));
  mret (EventData.make event_id kind event_name results).

(** Lines 180 to 237: the insert into [events] and the event's file. *)
Definition store_event (event : EventData.t pyfloat) : M unit :=
  events_set (EventData.id event) event;;
  write_file (event_path (EventData.id event)) (event_csv (EventData.results event)).

(** The line printed for an id that [events] already holds. *)
Definition skip_note (wrl_kind : string) (event_id : Z) : string :=
  "Skipping " +:+ wrl_kind +:+ "/" +:+ pretty event_id
  +:+ " (already scraped, probably a mixed event)".

(** The body of [for event_id in event_ids]. *)
Definition event_body (wrl_kind url : string) (event_id : Z) : M unit :=
  known ← read (fun st => Dict.mem event_id (events st));
  if (known : bool) then print (skip_note wrl_kind event_id)
  else
    event ← read_event wrl_kind url event_id;
    store_event event.

Fixpoint for_each {A} (body : A -> M unit) (l : list A) : M unit :=
  match l with
  | [] => mret tt
  | x :: rest => body x;; for_each body rest
  end.

(** [int(x["value"])]: [map] is lazy, so each option is read when the
    loop reaches it. *)
Definition option_id (x : node) : result Z :=
  value ← Bs4.getitem "value" x;
  match value with
  | AStr s => int_of_str s
  | AList _ => Raise TypeError
  end.

(** Lines 239 to 253: the summary of the series. *)
Definition write_summary (wrl_kind : string) : M unit :=
  values ← read (fun st => Dict.values (events st));
  write_file (series_path wrl_kind) (summary_csv values).

(** Lines 95 to 237: the listing of the series and the loop over its
    event ids. *)
Definition series_events (wrl_kind url : string) : M unit :=
  soup ← get url;
  event_select ← lift (from_option AssertionError
                         (Bs4.find (Bs4.attr_is "id" "WorldEvents") soup));
  for_each (fun x => event_id ← lift (option_id x);
                     event_body wrl_kind url event_id)
           (Bs4.find_all (Bs4.named "option") event_select).

(** The body of [for wrl_kind, url in DATASETS.items()]. *)
Definition series_body (wrl_kind url : string) : M unit :=
  series_events wrl_kind url;;
  write_summary wrl_kind.

Definition DATASETS : list (string * string) :=
  [("FSE", "https://fs-world.org/E"); ("FSC", "https://fs-world.org/C")].

(** The state the loop starts from: the clock reads [now], [disk] holds
    the files left by earlier runs. *)
Definition initial (now : Q) (disk : gmap string (csv pyfloat)) : State :=
  {| clock := now; requests := []; scraper := Scraper_init; events := [];
     event_kind := None; files := disk; stdout := [] |}.

(** The script, over any list of series. *)
Definition run (datasets : list (string * string)) : M unit :=
  print ("Saving data to " +:+ OUTPUT_DIR);;
  for_each (fun d => series_body (fst d) (snd d)) datasets.

Definition main : M unit := run DATASETS.

(** ** What the properties below are stated with *)

Definition key_is_id (d : list (Z * EventData.t pyfloat)) : Prop :=
  forall k e, Dict.get k d = Some e -> EventData.id e = k.

(** Every entry of [d] is in [d'], under the same key and unchanged. *)
Definition grows (d d' : list (Z * EventData.t pyfloat)) : Prop :=
  forall k e, Dict.get k d = Some e -> Dict.get k d' = Some e.

Definition evolves (st st' : State) : Prop :=
  (key_is_id (events st) -> key_is_id (events st')) /\
  grows (events st) (events st').

(** [m] takes every state to one related to it by [R], whether it returns
    or raises. *)
Definition keeps (R : State -> State -> Prop) {A} (m : M A) : Prop :=
  forall st, R st (fst (m st)).

(** When the request of a [get] called in [st] is sent. *)
Definition request_start (st : State) : Q :=
  let diff := (clock st - last_request (scraper st))%Q in
  if Qle_bool (min_pause (scraper st)) diff then clock st
  else (clock st + (min_pause (scraper st) - diff)
        + oversleep (length (requests st)))%Q.

(** The reading of the pacing rule that measures from the end of the
    previous request: after two calls in a row, the second request
    starts no sooner than [min_pause] after the first one ended. *)
Definition paced_from_end (u1 u2 : string) (st : State) : Prop :=
  let st2 := fst (get u2 (fst (get u1 st))) in
  forall s1 e1 s2 e2,
    requests st2 = requests st ++ [(u1, s1, e1); (u2, s2, e2)] ->
    (e1 + min_pause (scraper st) <= s2)%Q.

End Run.

Arguments State pyfloat : clear implicits.
Arguments M pyfloat A : clear implicits.

(** ** Invariants of a run *)

(** [row.find("th") is not None] *)
Definition is_header_row (row : node) : bool :=
  match Bs4.find (Bs4.named "th") row with Some _ => true | None => false end.

(** [n] dots. *)
Fixpoint dots (n : nat) : string :=
  match n with
  | O => EmptyString
  | S k => String "." (dots k)
  end.

Section Invariants.
Context {pyfloat : Type} `{B : Builtins pyfloat} `{W : World}.

(** Each request of the log starts at least [p] after the one before it
    started. *)
Definition starts_paced (p : Q) (log : list (string * Q * Q)) : Prop :=
  forall i u1 s1 e1 u2 s2 e2,
    log !! i = Some (u1, s1, e1) -> log !! S i = Some (u2, s2, e2) ->
    (s1 + p <= s2)%Q.

(** [last_request] is when the last request of the log started. *)
Definition scraper_synced (st : State pyfloat) : Prop :=
  forall u s e, last (requests st) = Some (u, s, e) -> last_request (scraper st) = s.

Definition pacing (p : Q) (st : State pyfloat) : Prop :=
  min_pause (scraper st) = p /\ starts_paced p (requests st) /\ scraper_synced st.

(** No key twice, and every entry filed under the id of its event. *)
Definition keys_unique (d : list (Z * EventData.t pyfloat)) : Prop :=
  NoDup (map fst d) /\ Forall (fun ke => EventData.id (snd ke) = fst ke) d.



(** No file of [st] is missing in [st']. *)
Definition files_kept (st st' : State pyfloat) : Prop :=
  forall path, is_Some (files st !! path) -> is_Some (files st' !! path).

(** The loop over the options of a listing, as in [series_events]. *)
Definition ids_loop (wrl_kind url : string) (options : list node) : M pyfloat unit :=
  for_each (fun x => event_id ← lift (option_id x);
                     event_body wrl_kind url event_id) options.

End Invariants.

(** ** Sample builtins and pages, for running the model on concrete input *)

Module Sample.

Fixpoint index_of (c : ascii) (candidates : list ascii) (i : Z) : option Z :=
  match candidates with
  | [] => None
  | d :: rest => if Ascii.eqb c d then Some i else index_of c rest (i + 1)%Z
  end.

(** The value of a decimal digit: its position in "0123456789". *)
Definition digit (c : ascii) : option Z :=
  index_of c (list_ascii_of_string "0123456789") 0%Z.

Fixpoint digits (acc : Z) (s : string) : option Z :=
  match s with
  | EmptyString => Some acc
  | String c rest =>
      match digit c with
      | Some d => digits (10 * acc + d) rest
      | None => None
      end
  end.

(** Plain decimal numerals, with an optional minus sign. *)
Definition dec_int (s : string) : option Z :=
  match s with
  | EmptyString => None
  | String c rest =>
      if Ascii.eqb c "-" then
        match rest with
        | EmptyString => None
        | _ => option_map Z.opp (digits 0 rest)
        end
      else digits 0 s
  end.

(** Decimal numerals with an optional fraction, read as exact rationals:
    the digits without the point, over the matching power of ten. *)
Definition dec_float (s : string) : option Q :=
  match Str.cut "." s with
  | Some (a, b) =>
      match dec_int (a +:+ b), digits 0 b with
      | Some m, Some _ => Some (Qmake m (Pos.pow 10 (Pos.of_nat (String.length b))))
      | _, _ => None
      end
  | None => option_map inject_Z (dec_int s)
  end.

#[export] Instance builtins : Builtins Q :=
  {| py_int := dec_int; py_float := dec_float |}.

Definition td (attrs : list (string * attr_value)) (children : list node) : node :=
  Tag "td" attrs children.

Definition dash : node := td [] [NavigableString "-"].

(** A discipline cell as the site renders it: the place, and the score
    in the tooltip of a [span]. *)
Definition placed (place score : string) : node :=
  td [] [Tag "span" [("title", AStr score)] [NavigableString place]].

Definition header_row : node :=
  Tag "tr" [] [Tag "th" [] [NavigableString "Team"]].

(** The row of scenario A: team Alpha, first place, no discipline scored. *)
Definition alpha_row : node :=
  Tag "tr" []
    [ td [("title", AStr "USA | Team Alpha")] [NavigableString "Team Alpha"];
      td [] [NavigableString "1."];
      dash; dash; dash; dash; dash; dash; dash; dash;
      td [] [NavigableString "0"];
      td [("title", AStr "electric")] [NavigableString "350"] ].

(** A row whose car kind the script does not know. *)
Definition hybrid_row : node :=
  Tag "tr" []
    [ td [("title", AStr "DEU | Team Beta")] [NavigableString "Team Beta"];
      td [] [NavigableString "2."];
      placed "3." "71.5"; dash; dash; dash; dash; dash; dash; dash;
      td [] [NavigableString "0"];
      td [("title", AStr "hybrid")] [NavigableString "120"] ].

Definition event_page (title info : string) (rows : list node) : node :=
  Tag "[document]" []
    [ Tag "h4" [] [NavigableString title];
      NavigableString info;
      Tag "h5" [("id", AStr "results")] [NavigableString "Results"];
      Tag "table" [("class", AList ["wrl_table"])] (header_row :: rows) ].

Definition listing (ids : list string) : node :=
  Tag "[document]" []
    [ Tag "select" [("id", AStr "WorldEvents")]
        (map (fun i => Tag "option" [("value", AStr i)] [NavigableString i]) ids) ].

(** A site with two series that both list event 205. *)
Definition site (url : string) : option node :=
  if String.eqb url "https://fs-world.org/E" then Some (listing ["101"; "205"])
  else if String.eqb url "https://fs-world.org/C" then Some (listing ["205"; "102"])
  else if String.eqb url "https://fs-world.org/E/101" then
    Some (event_page "FS Alpha" " Pure Electric event" [alpha_row])
  else if String.eqb url "https://fs-world.org/E/205" then
    Some (event_page "FS Mixed" " Mixed Event" [alpha_row; alpha_row])
  else if String.eqb url "https://fs-world.org/C/102" then
    Some (event_page "FS Gamma" " Pure Combustion event" [])
  else if String.eqb url "https://fs-world.org/E/7" then
    Some (event_page "FS Broken" " Pure Electric event" [alpha_row; hybrid_row])
  else None.

(** Every request takes five seconds; sleeps end on time. *)
#[export] Instance world : World :=
  {| web := fun _ url => site url;
     request_time := fun _ => 5%Q;
     oversleep := fun _ => 0%Q |}.

(** The same site answering within a quarter of a second. *)
Definition quick : World :=
  {| web := fun _ url => site url;
     request_time := fun _ => (1 # 4)%Q;
     oversleep := fun _ => 0%Q |}.

Definition start : State Q := initial 1000%Q ∅.

(** What [alpha_row] decodes to. *)
Definition alpha_team : TeamData.t Q :=
  TeamData.make "Team Alpha" "USA" CarKind.ELECTRIC 1
    None None None None None None None None 0%Q 350%Q.

(** A row with a single cell. *)
Definition short_row : node := Tag "tr" [] [td [] [NavigableString "1."]].

(** A second site: its listing has an option that is no integer, one of
    its event pages has no heading, and the series Y lists no event. *)
Definition site_bad (url : string) : option node :=
  if String.eqb url "https://fs-world.org/X" then Some (listing ["101"; "abc"; "205"])
  else if String.eqb url "https://fs-world.org/X/101" then
    Some (event_page "FS Alpha" " Pure Electric event" [alpha_row])
  else if String.eqb url "https://fs-world.org/X/9" then
    Some (Tag "[document]" [] [NavigableString "nothing here"])
  else if String.eqb url "https://fs-world.org/Y" then Some (listing [])
  else None.

Definition world_bad : World :=
  {| web := fun _ url => site_bad url;
     request_time := fun _ => (1 # 4)%Q;
     oversleep := fun _ => 0%Q |}.

(** An option of a listing, as [listing] builds it. *)
Definition option_tag (i : string) : node :=
  Tag "option" [("value", AStr i)] [NavigableString i].

(** A disk that already holds a file. *)
Definition start_with_file : State Q :=
  initial 1000%Q {[ "data/old.csv" := summary_csv [] ]}.

(** The state after the series FSE, which lists events 101 and 205. *)
Definition after_FSE : State Q :=
  fst (series_body "FSE" "https://fs-world.org/E" start).

End Sample.

(** * Properties *)

(** ** Strings *)

Section StringFacts.

Lemma prefix_append (sub rest : string) : String.prefix sub (sub +:+ rest) = true.
Proof.
  induction sub as [|c sub IH]; simpl.
  - now destruct rest.
  - destruct (ascii_dec c c) as [_|ne]; [exact IH | now elim ne].
Qed.

Lemma prefix_cons (a b : ascii) (s1 s2 : string) :
  String.prefix (String a s1) (String b s2) =
  if ascii_dec a b then String.prefix s1 s2 else false.
Proof. reflexivity. Qed.

Lemma drop_append (a b : string) : Str.drop (String.length a) (a +:+ b) = b.
Proof. induction a as [|c a IH]; simpl; [now destruct b | exact IH]. Qed.

Lemma lower_append (a b : string) : Str.lower (a +:+ b) = Str.lower a +:+ Str.lower b.
Proof. induction a as [|c a IH]; simpl; [reflexivity | now rewrite IH]. Qed.

Lemma find_unfold (sub s : string) :
  Str.find sub s =
  if String.prefix sub s then Some 0%nat
  else match s with
       | EmptyString => None
       | String _ rest => option_map S (Str.find sub rest)
       end.
Proof. now destruct s. Qed.

Lemma cut_unfold (sep s : string) :
  Str.cut sep s =
  if String.prefix sep s then Some (EmptyString, Str.drop (String.length sep) s)
  else match s with
       | EmptyString => None
       | String c rest =>
           match Str.cut sep rest with
           | Some (a, b) => Some (String c a, b)
           | None => None
           end
       end.
Proof. now destruct s. Qed.

Lemma find_append (sub a b : string) : Str.find sub (a +:+ sub +:+ b) <> None.
Proof.
  induction a as [|c a IH].
  - change (EmptyString +:+ sub +:+ b) with (sub +:+ b).
    rewrite find_unfold, prefix_append. discriminate.
  - change (String c a +:+ sub +:+ b) with (String c (a +:+ sub +:+ b)).
    rewrite find_unfold.
    destruct (String.prefix sub (String c (a +:+ sub +:+ b))); [discriminate|].
    destruct (Str.find sub (a +:+ sub +:+ b)); [discriminate | now elim IH].
Qed.

Lemma contains_append (sub a b : string) : Str.contains sub (a +:+ sub +:+ b) = true.
Proof.
  unfold Str.contains.
  destruct (Str.find sub (a +:+ sub +:+ b)) eqn:E; [reflexivity|].
  now elim (find_append sub a b).
Qed.

(** [cut] splits where [find] finds. *)
Lemma cut_at_find (sep c n : string) :
  Str.find sep (c +:+ sep +:+ n) = Some (String.length c) ->
  Str.cut sep (c +:+ sep +:+ n) = Some (c, n).
Proof.
  induction c as [|a c IH]; intros Hf.
  - change (EmptyString +:+ sep +:+ n) with (sep +:+ n).
    now rewrite cut_unfold, prefix_append, drop_append.
  - change (String a c +:+ sep +:+ n) with (String a (c +:+ sep +:+ n)) in *.
    rewrite find_unfold in Hf. rewrite cut_unfold.
    destruct (String.prefix sep (String a (c +:+ sep +:+ n))); [discriminate|].
    destruct (Str.find sep (c +:+ sep +:+ n)) as [i|] eqn:E; [|discriminate].
    simpl in Hf. injection Hf as ->.
    now rewrite IH.
Qed.

(** [cut] and [find] fail together. *)
Lemma cut_none_find (sep s : string) : Str.cut sep s = None <-> Str.find sep s = None.
Proof.
  induction s as [|a s IH]; rewrite cut_unfold, find_unfold.
  - destruct (String.prefix sep EmptyString); split; congruence.
  - destruct (String.prefix sep (String a s)); [split; congruence|].
    destruct IH as [I1 I2].
    destruct (Str.cut sep s) as [[x y]|], (Str.find sep s); simpl;
      split; try congruence; intros _; exfalso.
    + now discriminate I2.
    + now discriminate I1.
Qed.

(** A country without a bar cannot hold or complete the delimiter. *)
Lemma find_delimiter_after (c n : string) :
  Str.contains "|" c = false ->
  Str.find " | " (c +:+ " | " +:+ n) = Some (String.length c).
Proof.
  unfold Str.contains.
  induction c as [|a c IH]; intros Hc.
  - change (EmptyString +:+ " | " +:+ n) with (" | " +:+ n).
    now rewrite find_unfold, prefix_append.
  - change (String a c +:+ " | " +:+ n) with (String a (c +:+ " | " +:+ n)).
    rewrite find_unfold in Hc. rewrite find_unfold.
    assert (Hp : String.prefix "|" (String a c) = false)
      by (destruct (String.prefix "|" (String a c)); [discriminate Hc | reflexivity]).
    rewrite Hp in Hc.
    assert (Hc' : match Str.find "|" c with Some _ => true | None => false end = false)
      by (destruct (Str.find "|" c); [discriminate Hc | reflexivity]).
    rewrite (IH Hc'). clear IH Hc.
    assert (Hq : String.prefix " | " (String a (c +:+ " | " +:+ n)) = false).
    { rewrite prefix_cons.
      destruct (ascii_dec " " a) as [<-|]; [|reflexivity].
      destruct c as [|b c].
      - change (EmptyString +:+ " | " +:+ n) with (String " " ("| " +:+ n)).
        rewrite prefix_cons.
        now destruct (ascii_dec "|" " ") as [E|]; [discriminate E|].
      - change (String b c +:+ " | " +:+ n) with (String b (c +:+ " | " +:+ n)).
        rewrite prefix_cons.
        destruct (ascii_dec "|" b) as [<-|]; [|reflexivity].
        rewrite find_unfold, prefix_cons in Hc'.
        destruct (ascii_dec "|" "|") as [_|ne]; [|now elim ne].
        destruct c; discriminate Hc'. }
    now rewrite Hq.
Qed.

Lemma split1_length (sep s : string) :
  length (Str.split1 sep s) = 1%nat \/ length (Str.split1 sep s) = 2%nat.
Proof. unfold Str.split1. destruct (Str.cut sep s) as [[a b]|]; auto. Qed.

End StringFacts.

(** ** Tree queries *)

Section TreeFacts.

Lemma head_filter_some {A} (f : A -> bool) (l : list A) (x : A) :
  head (List.filter f l) = Some x -> In x l /\ f x = true.
Proof.
  intros H. apply filter_In.
  destruct (List.filter f l) as [|y ys]; [discriminate|].
  injection H as ->. now left.
Qed.

Lemma head_filter_none {A} (f : A -> bool) (l : list A) :
  (forall x, In x l -> f x = false) -> head (List.filter f l) = None.
Proof.
  intros H. destruct (List.filter f l) as [|y ys] eqn:E; [reflexivity|].
  assert (Hy : In y (List.filter f l)) by (rewrite E; now left).
  apply filter_In in Hy as [Hin Hf]. rewrite (H y Hin) in Hf. discriminate.
Qed.

(** What [find] returns is a descendant tag that passes the filter. *)
Lemma find_some (p : node -> bool) (n t : node) :
  Bs4.find p n = Some t ->
  In t (Bs4.descendants n) /\ Bs4.is_tag t = true /\ p t = true.
Proof.
  intros H. apply head_filter_some in H as [Hin Hp].
  apply andb_true_iff in Hp. tauto.
Qed.

Lemma find_none (p : node -> bool) (n : node) :
  (forall d, In d (Bs4.descendants n) -> p d = false) -> Bs4.find p n = None.
Proof.
  intros H. apply head_filter_none. intros d Hd.
  rewrite (H d Hd). apply andb_false_r.
Qed.

(** A tag found by [has_attr] answers [tag[key]]. *)
Lemma getitem_has_attr (key : string) (t : node) :
  Bs4.has_attr key t = true -> exists v, Bs4.getitem key t = Ok v.
Proof.
  destruct t as [nm attrs cs| |]; simpl; try discriminate.
  destruct (Bs4.attr_get key attrs) as [v|]; [|discriminate]. now exists v.
Qed.

End TreeFacts.

(** ** Decoding a row *)

Section DecodingFacts.
Context {pyfloat : Type} `{B : Builtins pyfloat}.

(** Walks through the steps of [extract_discipline_data] in [H]. *)
Ltac discipline_steps H col Hi Hf Hg Hs :=
  unfold mbind, result_bind in H;
  destruct (py_int (Str.rstrip "." (Bs4.text col))) as [?place|] eqn:Hi;
    simpl in H; [|discriminate H];
  destruct (Bs4.find (Bs4.has_attr "title") col) as [?tooltip|] eqn:Hf;
    simpl in H; [|discriminate H];
  match type of Hf with _ = Some ?t =>
    destruct (Bs4.getitem "title" t) as [[?title|?l]|] eqn:Hg;
      simpl in H; [|discriminate H|discriminate H]
  end;
  match type of Hg with _ = Ok (AStr ?s) =>
    destruct (py_float s) as [?score|] eqn:Hs; simpl in H; [|discriminate H]
  end.

(** C1.  Decoding a discipline cell gives null exactly when the cell text
    without its trailing dots is "-"; it gives a placement exactly when
    that text is not "-", [int] reads it as the place, and [float] reads
    the [title] of the first descendant tag that has one as the score. *)
Theorem extract_discipline_data_decodes (col : node) :
  (extract_discipline_data col = Ok None <-> Str.rstrip "." (Bs4.text col) = "-") /\
  (forall p : PlacementData.t pyfloat,
     extract_discipline_data col = Ok (Some p) <->
     Str.rstrip "." (Bs4.text col) <> "-" /\
     py_int (Str.rstrip "." (Bs4.text col)) = Some (PlacementData.place p) /\
     exists tooltip title,
       Bs4.find (Bs4.has_attr "title") col = Some tooltip /\
       In tooltip (Bs4.descendants col) /\
       Bs4.getitem "title" tooltip = Ok (AStr title) /\
       py_float title = Some (PlacementData.score p)).
Proof.
  unfold extract_discipline_data, int_of_str, float_of_str, from_option.
  destruct (String.eqb_spec (Str.rstrip "." (Bs4.text col)) "-") as [E|E].
  - split; [tauto|]. intros p. split; [discriminate | tauto].
  - split.
    + split; [|tauto]. intros H. exfalso.
      discipline_steps H col Hi Hf Hg Hs. discriminate H.
    + intros [place score]. split.
      * intros H. discipline_steps H col Hi Hf Hg Hs.
        injection H as -> ->. split; [exact E|]. split; [reflexivity|].
        destruct (find_some _ _ _ Hf) as [Hin _].
        eexists _, _. repeat split; eauto.
      * intros (_ & Hi & tooltip & title & Hf & _ & Hg & Hs). simpl in Hi, Hs.
        unfold mbind, result_bind. now rewrite Hi, Hf, Hg, Hs.
Qed.

(** The eight discipline fields of a decoded row all come from
    [extract_discipline_data], on columns 2 to 9 in order. *)
Lemma extract_team_disciplines (row : node) (team : TeamData.t pyfloat)
    (c0 c1 c2 c3 c4 c5 c6 c7 c8 c9 c10 c11 : node) :
  Bs4.find_all (Bs4.named "td") row = [c0; c1; c2; c3; c4; c5; c6; c7; c8; c9; c10; c11] ->
  extract_team row = Ok team ->
  extract_discipline_data c2 = Ok (TeamData.cost team) /\
  extract_discipline_data c3 = Ok (TeamData.bp team) /\
  extract_discipline_data c4 = Ok (TeamData.ed team) /\
  extract_discipline_data c5 = Ok (TeamData.acc team) /\
  extract_discipline_data c6 = Ok (TeamData.sp team) /\
  extract_discipline_data c7 = Ok (TeamData.autox team) /\
  extract_discipline_data c8 = Ok (TeamData.endu team) /\
  extract_discipline_data c9 = Ok (TeamData.eff team).
Proof.
  intros Hcols H. unfold extract_team in H. rewrite Hcols in H.
  unfold mbind, result_bind in H.
  destruct (country_name c0); [|discriminate H].
  destruct (int_of_str _); [|discriminate H].
  destruct (extract_discipline_data c2); [|discriminate H].
  destruct (extract_discipline_data c3); [|discriminate H].
  destruct (extract_discipline_data c4); [|discriminate H].
  destruct (extract_discipline_data c5); [|discriminate H].
  destruct (extract_discipline_data c6); [|discriminate H].
  destruct (extract_discipline_data c7); [|discriminate H].
  destruct (extract_discipline_data c8); [|discriminate H].
  destruct (extract_discipline_data c9); [|discriminate H].
  destruct (float_of_str (Bs4.text c10)); [|discriminate H].
  destruct (float_of_str (Bs4.text c11)); [|discriminate H].
  destruct (Bs4.getitem "title" c11) as [v|]; [|discriminate H].
  destruct (car_kind v); [|discriminate H].
  injection H as <-. simpl. tauto.
Qed.

(** C7.  A cell whose stripped text is not "-" and below which no
    element carries a [title] is never decoded: the call raises
    ([AssertionError] once the place is read, the [ValueError] of [int]
    otherwise). *)
Theorem extract_discipline_data_missing_title (col : node) :
  Str.rstrip "." (Bs4.text col) <> "-" ->
  (forall d, In d (Bs4.descendants col) -> Bs4.has_attr "title" d = false) ->
  exists e, extract_discipline_data col = Raise e /\
    (is_Some (py_int (Str.rstrip "." (Bs4.text col))) -> e = AssertionError).
Proof.
  intros Htext Hnone.
  unfold extract_discipline_data, int_of_str, from_option.
  destruct (String.eqb_spec (Str.rstrip "." (Bs4.text col)) "-") as [E|_];
    [contradiction|].
  rewrite (find_none _ _ Hnone).
  destruct (py_int (Str.rstrip "." (Bs4.text col))) as [place|]; simpl.
  - now exists AssertionError.
  - eexists; split; [reflexivity|]. intros [x Hx]. discriminate Hx.
Qed.

(** The [KeyError] handler of [extract_discipline_data] is never entered. *)
Lemma extract_discipline_data_no_KeyError (col : node) (key : string) :
  extract_discipline_data col <> Raise (KeyError key).
Proof.
  unfold extract_discipline_data, int_of_str, float_of_str, from_option.
  destruct (String.eqb (Str.rstrip "." (Bs4.text col)) "-"); [discriminate|].
  unfold mbind, result_bind.
  destruct (py_int _); [|discriminate].
  destruct (Bs4.find _ col) as [t|] eqn:Hf; [|discriminate].
  apply find_some in Hf as (_ & _ & Hattr).
  destruct (getitem_has_attr _ _ Hattr) as [v ->].
  destruct v; [|discriminate].
  destruct (py_float s); discriminate.
Qed.

(** C5.  The car kind is ELECTRIC, COMBUSTION or OTHER exactly for the
    titles "electric", "combustion" and "other"; every other title, such
    as "hybrid" or "Electric", raises the [ValueError] that names it. *)
Theorem car_kind_decodes (s : string) :
  (car_kind (AStr s) = Ok CarKind.ELECTRIC <-> s = "electric") /\
  (car_kind (AStr s) = Ok CarKind.COMBUSTION <-> s = "combustion") /\
  (car_kind (AStr s) = Ok CarKind.OTHER <-> s = "other") /\
  (s <> "electric" -> s <> "combustion" -> s <> "other" ->
   car_kind (AStr s) = Raise (ValueError ("Unknown car kind: " +:+ s))).
Proof.
  unfold car_kind.
  destruct (String.eqb_spec s "electric") as [->|E1].
  { repeat split; try discriminate; try tauto. }
  destruct (String.eqb_spec s "combustion") as [->|E2].
  { repeat split; try discriminate; try tauto. }
  destruct (String.eqb_spec s "other") as [->|E3].
  { repeat split; try discriminate; try tauto. }
  repeat split; try discriminate; try tauto.
Qed.

(** C4.  A title "Country | Name" whose first " | " is the one after the
    country (as when the country holds no bar) decodes to the pair
    (Country, Name), whatever further " | " the name holds; [split] with
    a limit of one never gives more than two parts, and a title without
    the delimiter gives one part and raises. *)
Theorem country_name_decodes (nm : string) (attrs : list (string * attr_value))
    (cs : list node) :
  (forall country name,
     Bs4.attr_get "title" attrs = Some (AStr (country +:+ " | " +:+ name)) ->
     Str.find " | " (country +:+ " | " +:+ name) = Some (String.length country) ->
     country_name (Tag nm attrs cs) = Ok (country, name)) /\
  (forall country name,
     Bs4.attr_get "title" attrs = Some (AStr (country +:+ " | " +:+ name)) ->
     Str.contains "|" country = false ->
     country_name (Tag nm attrs cs) = Ok (country, name)) /\
  (forall title,
     Bs4.attr_get "title" attrs = Some (AStr title) ->
     (length (Str.split1 " | " title) = 1%nat \/ length (Str.split1 " | " title) = 2%nat) /\
     (length (Str.split1 " | " title) <> 2%nat ->
      exists msg, country_name (Tag nm attrs cs) = Raise (ValueError msg)) /\
     (Str.contains " | " title = false -> length (Str.split1 " | " title) = 1%nat)).
Proof.
  assert (Hmain : forall country name,
     Bs4.attr_get "title" attrs = Some (AStr (country +:+ " | " +:+ name)) ->
     Str.find " | " (country +:+ " | " +:+ name) = Some (String.length country) ->
     country_name (Tag nm attrs cs) = Ok (country, name)).
  { intros country name Ha Hf. unfold country_name. simpl. rewrite Ha. simpl.
    unfold Str.split1. now rewrite (cut_at_find _ _ _ Hf). }
  split; [exact Hmain|]. split.
  - intros country name Ha Hc. apply Hmain; [exact Ha|].
    now apply find_delimiter_after.
  - intros title Ha. split; [apply split1_length|]. split.
    + intros Hlen. unfold country_name. simpl. rewrite Ha. simpl.
      unfold Str.split1 in *.
      destruct (Str.cut " | " title) as [[a b]|]; [now elim Hlen|].
      eexists; reflexivity.
    + intros Hc. unfold Str.split1, Str.contains in *.
      destruct (Str.find " | " title) eqn:Hf; [discriminate|].
      apply cut_none_find in Hf. now rewrite Hf.
Qed.

End DecodingFacts.

(** ** The dictionary *)

Section DictFacts.
Context {V : Type}.
Implicit Types (d : list (Z * V)) (k : Z) (v : V).

Lemma dict_get_set_eq k v d : Dict.get k (Dict.set k v d) = Some v.
Proof.
  induction d as [|[k' v'] d IH]; simpl.
  - now rewrite Z.eqb_refl.
  - destruct (Z.eqb k' k) eqn:E; simpl; rewrite E; [reflexivity | exact IH].
Qed.

Lemma dict_get_set_ne k k' v d : k <> k' -> Dict.get k' (Dict.set k v d) = Dict.get k' d.
Proof.
  intros Hne. induction d as [|[k0 v0] d IH]; simpl.
  - destruct (Z.eqb_spec k k'); [contradiction | reflexivity].
  - destruct (Z.eqb_spec k0 k) as [->|]; simpl.
    + destruct (Z.eqb_spec k k'); [contradiction | reflexivity].
    + destruct (Z.eqb k0 k'); [reflexivity | exact IH].
Qed.

Lemma dict_mem_false k d : Dict.mem k d = false -> Dict.get k d = None.
Proof. unfold Dict.mem. now destruct (Dict.get k d). Qed.

Lemma dict_mem_true k d : Dict.mem k d = true <-> exists v, Dict.get k d = Some v.
Proof.
  unfold Dict.mem. destruct (Dict.get k d) as [v|]; split; eauto.
  - discriminate.
  - intros [? ?]; discriminate.
Qed.

(** A new key goes last; the entries before it stay as they are. *)
Lemma dict_set_new k v d : Dict.mem k d = false -> Dict.set k v d = d ++ [(k, v)].
Proof.
  unfold Dict.mem. induction d as [|[k' v'] d IH]; simpl; [reflexivity|].
  destruct (Z.eqb k' k); [discriminate|]. intros H. now rewrite IH.
Qed.

Lemma dict_get_values k v d : Dict.get k d = Some v -> In v (Dict.values d).
Proof.
  unfold Dict.values. induction d as [|[k' v'] d IH]; simpl; [discriminate|].
  destruct (Z.eqb k' k); [intros [= ->]; now left | right; auto].
Qed.

End DictFacts.

(** ** The run *)

Section RunFacts.
Context {pyfloat : Type} `{B : Builtins pyfloat} `{W : World}.

(** Unfolds the monad of the script down to matches on the steps that
    can raise. *)
Ltac run_steps :=
  unfold read_event, store_event, event_body, write_summary,
    mbind, M_bind, mret, M_ret, get, lift, read, set_event_kind, print,
    events_set, write_file, from_option;
  cbn [fst snd clock requests scraper events event_kind files stdout].

(** What [read_event] does: it leaves [events] and the files alone, and
    an event it returns carries the requested id, the heading of the page
    it fetched and the decoded rows of that page's table. *)
Lemma read_event_cases (wrl_kind url : string) (event_id : Z) (st : State pyfloat) :
  let r := read_event wrl_kind url event_id st in
  events (fst r) = events st /\
  files (fst r) = files st /\
  requests (fst r) <> requests st /\
  forall event, snd r = Ok event ->
    EventData.id event = event_id /\
    exists soup table info,
      web (length (requests st)) (event_url url event_id) = Some soup /\
      event_heading soup = Ok (EventData.name event, info) /\
      classify (event_kind st) info = Some (EventData.kind event) /\
      results_table soup = Ok table /\
      extract_results (Bs4.find_all (Bs4.named "tr") table)
        = Ok (EventData.results event).
Proof.
  run_steps.
  assert (Hreq : forall x : string * Q * Q, requests st ++ [x] <> requests st).
  { intros x Hx. apply (f_equal (@length _)) in Hx.
    rewrite length_app in Hx. simpl in Hx. lia. }
  destruct (web _ _) as [soup|]; cbn; [|now auto].
  destruct (event_heading soup) as [[name info]|] eqn:Hh; cbn; [|now auto].
  destruct (classify (event_kind st) info) as [kind|] eqn:Hk; cbn; [|now auto].
  destruct (results_table soup) as [table|] eqn:Ht; cbn; [|now auto].
  destruct (extract_results _) as [results|] eqn:Hr; cbn; [|now auto].
  repeat split; auto.
  all: injection H as <-; cbn; eauto 10.
Qed.

(** The variable [event_kind] after [read_event], and the [NameError] of
    the progress line when it is still unbound. *)
Lemma read_event_kind (wrl_kind url : string) (event_id : Z) (st : State pyfloat)
    (soup : node) (name : string) (info : event_info) :
  web (length (requests st)) (event_url url event_id) = Some soup ->
  event_heading soup = Ok (name, info) ->
  let r := read_event wrl_kind url event_id st in
  event_kind (fst r) = classify (event_kind st) info /\
  (classify (event_kind st) info = None -> snd r = Raise (NameError "event_kind")) /\
  (forall event, snd r = Ok event ->
     Some (EventData.kind event) = classify (event_kind st) info).
Proof.
  intros Hweb Hh. run_steps. rewrite Hweb; cbn. rewrite Hh; cbn.
  destruct (classify (event_kind st) info) as [kind|] eqn:Hk; cbn.
  - destruct (results_table soup) as [table|]; cbn.
    + destruct (extract_results _) as [results|]; cbn.
      * repeat split; [discriminate|]. now intros event [= <-].
      * repeat split; discriminate.
    + repeat split; discriminate.
  - repeat split. discriminate.
Qed.

(** C6.  The kind is read from the lower-cased text that follows the
    heading, first match in the order "mixed event", "pure electric",
    "pure combustion"; "Pure Electric" in any mix of cases counts (when
    "mixed event" does not come first).  Without a match nothing is
    assigned: the variable keeps the value of the previous event, and
    the run stops with a [NameError] when it has none. *)
Theorem event_kind_classified (text : string) (prev : option EventKind.t) :
  let info := InfoStr (Str.lower text) in
  (Str.contains "mixed event" (Str.lower text) = true ->
   classify prev info = Some EventKind.MIXED) /\
  (Str.contains "mixed event" (Str.lower text) = false ->
   Str.contains "pure electric" (Str.lower text) = true ->
   classify prev info = Some EventKind.ELECTRIC) /\
  (Str.contains "mixed event" (Str.lower text) = false ->
   Str.contains "pure electric" (Str.lower text) = false ->
   Str.contains "pure combustion" (Str.lower text) = true ->
   classify prev info = Some EventKind.COMBUSTION) /\
  (Str.contains "mixed event" (Str.lower text) = false ->
   Str.contains "pure electric" (Str.lower text) = false ->
   Str.contains "pure combustion" (Str.lower text) = false ->
   classify prev info = prev) /\
  (forall before spelled after,
     text = before +:+ spelled +:+ after ->
     Str.lower spelled = "pure electric" ->
     Str.contains "mixed event" (Str.lower text) = false ->
     classify prev info = Some EventKind.ELECTRIC) /\
  (forall wrl_kind url event_id st soup h following,
     web (length (requests st)) (event_url url event_id) = Some soup ->
     Bs4.find_all_located (Bs4.named "h4") soup
       = [(h, NavigableString text :: following)] ->
     event_kind st = prev ->
     let r := read_event wrl_kind url event_id st in
     event_kind (fst r) = classify prev info /\
     (classify prev info = None -> snd r = Raise (NameError "event_kind")) /\
     (forall event, snd r = Ok event ->
        Some (EventData.kind event) = classify prev info)).
Proof.
  cbn zeta. repeat apply conj.
  - unfold classify, info_contains. now intros ->.
  - unfold classify, info_contains. now intros -> ->.
  - unfold classify, info_contains. now intros -> -> ->.
  - unfold classify, info_contains. now intros -> -> ->.
  - unfold classify, info_contains. intros before spelled after -> Hs ->.
    rewrite !lower_append, Hs.
    now rewrite (contains_append "pure electric").
  - intros wrl_kind url event_id st soup h following Hweb Hh4 <-.
    apply (read_event_kind wrl_kind url event_id st soup (Bs4.text h)); [exact Hweb|].
    unfold event_heading. now rewrite Hh4.
Qed.

(** *** Skipping a known event *)

(** A body that returned has its id in [events]. *)
Lemma event_body_known (wrl_kind url : string) (event_id : Z) (st : State pyfloat) :
  snd (event_body wrl_kind url event_id st) = Ok tt ->
  Dict.mem event_id (events (fst (event_body wrl_kind url event_id st))) = true.
Proof.
  pose proof (read_event_cases wrl_kind url event_id st) as Hread.
  cbn zeta in Hread. destruct Hread as (_ & _ & _ & Hok).
  unfold event_body, mbind, M_bind, read. cbn [fst snd].
  destruct (Dict.mem event_id (events st)) eqn:Hmem; [intros _; exact Hmem|].
  destruct (read_event wrl_kind url event_id st) as [st1 [event|e]];
    cbn [fst snd] in *; [|discriminate].
  destruct (Hok event eq_refl) as [Hid _]. intros _.
  run_steps. rewrite Hid. apply dict_mem_true. eexists. apply dict_get_set_eq.
Qed.

(** C3.  For an id that [events] already holds, the body only prints the
    note: no request is made, the clock, the scraper, [events], the files
    and [event_kind] stay as they are.  An id whose body returned is in
    [events], so its next encounter, in whatever series, is this skip. *)
Theorem event_body_skips_known (event_id : Z) :
  (forall wrl_kind url st,
     Dict.mem event_id (events st) = true ->
     let r := event_body wrl_kind url event_id st in
     snd r = Ok tt /\
     requests (fst r) = requests st /\
     clock (fst r) = clock st /\
     scraper (fst r) = scraper st /\
     events (fst r) = events st /\
     event_kind (fst r) = event_kind st /\
     files (fst r) = files st /\
     stdout (fst r) = stdout st ++ [skip_note wrl_kind event_id]) /\
  (forall wrl_kind url st wrl_kind' url' st',
     snd (event_body wrl_kind url event_id st) = Ok tt ->
     events st' = events (fst (event_body wrl_kind url event_id st)) ->
     let r := event_body wrl_kind' url' event_id st' in
     snd r = Ok tt /\
     requests (fst r) = requests st' /\
     events (fst r) = events st' /\
     files (fst r) = files st' /\
     stdout (fst r) = stdout st' ++ [skip_note wrl_kind' event_id]).
Proof.
  assert (Hskip : forall wrl_kind url st,
     Dict.mem event_id (events st) = true ->
     let r := event_body wrl_kind url event_id st in
     snd r = Ok tt /\
     requests (fst r) = requests st /\
     clock (fst r) = clock st /\
     scraper (fst r) = scraper st /\
     events (fst r) = events st /\
     event_kind (fst r) = event_kind st /\
     files (fst r) = files st /\
     stdout (fst r) = stdout st ++ [skip_note wrl_kind event_id]).
  { intros wrl_kind url st Hmem. run_steps. rewrite Hmem. cbn. tauto. }
  split; [exact Hskip|].
  intros wrl_kind url st wrl_kind' url' st' Hok Hev.
  assert (Hmem : Dict.mem event_id (events st') = true)
    by (rewrite Hev; now apply event_body_known).
  destruct (Hskip wrl_kind' url' st' Hmem) as (? & ? & _ & _ & ? & _ & ? & ?).
  cbn zeta. tauto.
Qed.

(** *** Failure while decoding an event *)

(** When the loop over the rows returns, every row without a header cell
    was decoded. *)
Lemma extract_results_all_decoded (rows : list node) (teams : list (TeamData.t pyfloat)) :
  extract_results rows = Ok teams ->
  forall row, In row rows -> Bs4.find (Bs4.named "th") row = None ->
  exists team, extract_team row = Ok team.
Proof.
  revert teams. induction rows as [|r rows IH]; intros teams Hok row Hin Hth.
  - destruct Hin.
  - simpl in Hok. destruct Hin as [->|Hin].
    + rewrite Hth in Hok. unfold mbind, result_bind in Hok.
      destruct (extract_team row) as [team|]; [now exists team | discriminate].
    + destruct (Bs4.find (Bs4.named "th") r).
      * now apply (IH teams).
      * unfold mbind, result_bind in Hok.
        destruct (extract_team r); [|discriminate].
        destruct (extract_results rows) as [ts|]; [|discriminate].
        now apply (IH ts).
Qed.

(** C9.  For an id not yet in [events]: when the body raises, [events]
    and the files are what they were before it (no entry and no file for
    the id); a row of the table that fails to decode makes the body
    raise; and when the body returns, every row was decoded and only
    then the event was inserted and its file written. *)
Theorem event_body_all_or_nothing (wrl_kind url : string) (event_id : Z) (st : State pyfloat) :
  Dict.mem event_id (events st) = false ->
  let r := event_body wrl_kind url event_id st in
  (forall e, snd r = Raise e ->
     events (fst r) = events st /\ files (fst r) = files st) /\
  (forall soup table row e,
     web (length (requests st)) (event_url url event_id) = Some soup ->
     results_table soup = Ok table ->
     In row (Bs4.find_all (Bs4.named "tr") table) ->
     Bs4.find (Bs4.named "th") row = None ->
     extract_team row = Raise e ->
     exists e', snd r = Raise e') /\
  (snd r = Ok tt ->
     exists soup table event,
       web (length (requests st)) (event_url url event_id) = Some soup /\
       results_table soup = Ok table /\
       extract_results (Bs4.find_all (Bs4.named "tr") table)
         = Ok (EventData.results event) /\
       EventData.id event = event_id /\
       events (fst r) = events st ++ [(event_id, event)] /\
       files (fst r)
         = <[event_path event_id := event_csv (EventData.results event)]> (files st)).
Proof.
  intros Hmem.
  pose proof (read_event_cases wrl_kind url event_id st) as Hread.
  cbn zeta in *. destruct Hread as (Hev & Hfiles & _ & Hok).
  assert (Hret : snd (event_body wrl_kind url event_id st) = Ok tt ->
     exists soup table event,
       web (length (requests st)) (event_url url event_id) = Some soup /\
       results_table soup = Ok table /\
       extract_results (Bs4.find_all (Bs4.named "tr") table)
         = Ok (EventData.results event) /\
       EventData.id event = event_id /\
       events (fst (event_body wrl_kind url event_id st))
         = events st ++ [(event_id, event)] /\
       files (fst (event_body wrl_kind url event_id st))
         = <[event_path event_id := event_csv (EventData.results event)]> (files st)).
  { unfold event_body, mbind, M_bind, read. cbn [fst snd]. rewrite Hmem.
    destruct (read_event wrl_kind url event_id st) as [st1 [event|e]];
      cbn [fst snd] in *; [|discriminate].
    destruct (Hok event eq_refl) as (Hid & soup & table & info & Hw & _ & _ & Ht & Hr).
    intros _. exists soup, table, event. run_steps.
    rewrite Hid, Hev, Hfiles. repeat split; auto.
    now apply dict_set_new. }
  repeat apply conj.
  - unfold event_body, mbind, M_bind, read. cbn [fst snd]. rewrite Hmem.
    destruct (read_event wrl_kind url event_id st) as [st1 [event|e]];
      cbn [fst snd] in *.
    + run_steps. discriminate.
    + intros _ _. now split.
  - intros soup table row e Hw Ht Hin Hth Hrow.
    destruct (snd (event_body wrl_kind url event_id st)) as [[]|e'] eqn:Hres;
      [|now exists e'].
    destruct (Hret eq_refl) as (soup' & table' & event & Hw' & Ht' & Hr & _).
    rewrite Hw in Hw'. injection Hw' as <-.
    rewrite Ht in Ht'. injection Ht' as <-.
    destruct (extract_results_all_decoded _ _ Hr row Hin Hth) as [team Hteam].
    rewrite Hrow in Hteam. discriminate.
  - exact Hret.
Qed.

(** *** The invariant of [events] *)

Section Keeps.
Variable R : State pyfloat -> State pyfloat -> Prop.
Hypothesis R_refl : forall st, R st st.
Hypothesis R_trans : forall a b c, R a b -> R b c -> R a c.

Lemma keeps_lift {A} (r : result A) : keeps R (lift r).
Proof. intros st. apply R_refl. Qed.

Lemma keeps_ret {A} (a : A) : keeps R (mret a).
Proof. intros st. apply R_refl. Qed.

Lemma keeps_bind {A C} (m : M pyfloat A) (k : A -> M pyfloat C) :
  keeps R m -> (forall a, keeps R (k a)) -> keeps R (m ≫= k).
Proof.
  intros Hm Hk st. unfold mbind, M_bind.
  specialize (Hm st). destruct (m st) as [st1 [a|e]]; cbn [fst] in *.
  - exact (R_trans _ _ _ Hm (Hk a st1)).
  - exact Hm.
Qed.

Lemma keeps_for_each {A} (body : A -> M pyfloat unit) (l : list A) :
  (forall x, keeps R (body x)) -> keeps R (for_each body l).
Proof.
  intros Hbody. induction l as [|x l IH]; simpl.
  - apply keeps_ret.
  - apply keeps_bind; [apply Hbody | intros _; exact IH].
Qed.

End Keeps.

Lemma evolves_refl (st : State pyfloat) : evolves st st.
Proof. split; [tauto | now intros k e]. Qed.

Lemma evolves_trans (a b c : State pyfloat) : evolves a b -> evolves b c -> evolves a c.
Proof.
  intros [H1 G1] [H2 G2]. split; [tauto|].
  intros k e Hk. apply G2, G1, Hk.
Qed.

Lemma evolves_same_events (st st' : State pyfloat) : events st' = events st -> evolves st st'.
Proof. intros E. unfold evolves. rewrite E. split; [tauto | now intros k e]. Qed.

Lemma get_evolves (url : string) : keeps (@evolves pyfloat) (get url).
Proof. intros st. now apply evolves_same_events. Qed.

Lemma write_summary_evolves (wrl_kind : string) : keeps (@evolves pyfloat) (write_summary wrl_kind).
Proof. intros st. now apply evolves_same_events. Qed.

Lemma print_evolves (line : string) : keeps (@evolves pyfloat) (print line).
Proof. intros st. now apply evolves_same_events. Qed.

Lemma event_body_evolves (wrl_kind url : string) (event_id : Z) :
  keeps (@evolves pyfloat) (event_body wrl_kind url event_id).
Proof.
  intros st.
  pose proof (read_event_cases wrl_kind url event_id st) as Hread.
  cbn zeta in Hread. destruct Hread as (Hev & _ & _ & Hok).
  unfold event_body, mbind, M_bind, read. cbn [fst snd].
  destruct (Dict.mem event_id (events st)) eqn:Hmem.
  { now apply evolves_same_events. }
  destruct (read_event wrl_kind url event_id st) as [st1 [event|e]];
    cbn [fst snd] in *; [|now apply evolves_same_events].
  destruct (Hok event eq_refl) as [Hid _].
  run_steps. rewrite Hid, Hev. apply dict_mem_false in Hmem.
  unfold evolves, key_is_id, grows. cbn [events]. split.
  - intros Hinv k e. destruct (Z.eq_dec event_id k) as [<-|Hne].
    + rewrite dict_get_set_eq. now intros [= <-].
    + rewrite dict_get_set_ne by exact Hne. apply Hinv.
  - intros k e Hk. destruct (Z.eq_dec event_id k) as [<-|Hne].
    + rewrite Hmem in Hk. discriminate.
    + now rewrite dict_get_set_ne.
Qed.

Lemma series_events_evolves (wrl_kind url : string) :
  keeps (@evolves pyfloat) (series_events wrl_kind url).
Proof.
  unfold series_events.
  apply (keeps_bind _ evolves_trans); [apply get_evolves|]. intros soup.
  apply (keeps_bind _ evolves_trans); [apply (keeps_lift _ evolves_refl)|].
  intros event_select.
  apply (keeps_for_each _ evolves_refl evolves_trans). intros x.
  apply (keeps_bind _ evolves_trans); [apply (keeps_lift _ evolves_refl)|].
  intros event_id. apply event_body_evolves.
Qed.

Lemma series_body_evolves (wrl_kind url : string) :
  keeps (@evolves pyfloat) (series_body wrl_kind url).
Proof.
  unfold series_body.
  apply (keeps_bind _ evolves_trans); [apply series_events_evolves|].
  intros _. apply write_summary_evolves.
Qed.

Lemma run_evolves (datasets : list (string * string)) : keeps (@evolves pyfloat) (run datasets).
Proof.
  unfold run.
  apply (keeps_bind _ evolves_trans); [apply print_evolves|]. intros _.
  apply (keeps_for_each _ evolves_refl evolves_trans). intros d.
  apply series_body_evolves.
Qed.

(** C10.  Each pass of the event loop, each pass of the series loop and
    the whole run, whether they return or raise, keep every entry of
    [events] under its key and unchanged, and keep each key equal to the
    id of its event; the run starts from the empty mapping, where this
    holds. *)
Theorem events_keyed_and_growing :
  (forall wrl_kind url event_id st,
     evolves st (fst (event_body wrl_kind url event_id st))) /\
  (forall wrl_kind url st, evolves st (fst (series_body wrl_kind url st))) /\
  (forall datasets st, evolves st (fst (run datasets st))) /\
  (forall datasets now disk,
     key_is_id (events (fst (run datasets (initial now disk))))).
Proof.
  repeat apply conj.
  - intros wrl_kind url event_id. apply event_body_evolves.
  - intros wrl_kind url. apply series_body_evolves.
  - apply run_evolves.
  - intros datasets now disk.
    apply (run_evolves datasets (initial now disk)).
    intros k e Hk. discriminate Hk.
Qed.

(** *** The summary of a series *)

(** C2.  When the body of the series loop returns, the summary file of
    the series holds one row (id, kind name, name, number of teams) for
    each entry of [events] as it then is, in order; the events that were
    in [events] before this series are among them.  The file is replaced,
    not extended: its content does not depend on what it held. *)
Theorem series_summary_covers_all_events (wrl_kind url : string) (st : State pyfloat) :
  let r := series_body wrl_kind url st in
  snd r = Ok tt ->
  files (fst r) !! series_path wrl_kind
    = Some {| fieldnames := ["id"; "kind"; "name"; "teams"];
              rows := map summary_row (Dict.values (events (fst r))) |} /\
  length (map summary_row (Dict.values (events (fst r)))) = length (events (fst r)) /\
  (forall k e, Dict.get k (events st) = Some e ->
     In (summary_row e) (map summary_row (Dict.values (events (fst r))))) /\
  (forall st1 : State pyfloat, fst (write_summary wrl_kind st1)
     = {| clock := clock st1; requests := requests st1; scraper := scraper st1;
          events := events st1; event_kind := event_kind st1;
          files := <[series_path wrl_kind := summary_csv (Dict.values (events st1))]>
                     (files st1);
          stdout := stdout st1 |}).
Proof.
  cbn zeta. intros Hok.
  pose proof (series_events_evolves wrl_kind url st) as [_ Hgrow].
  unfold series_body, mbind, M_bind in *.
  destruct (series_events wrl_kind url st) as [st1 [[]|e]]; cbn [fst snd] in *;
    [|discriminate].
  run_steps. repeat apply conj.
  - now rewrite lookup_insert_eq.
  - unfold Dict.values. now rewrite !length_map.
  - intros k e Hk. apply in_map. apply (dict_get_values k). now apply Hgrow.
  - reflexivity.
Qed.

(** *** Pacing *)

Lemma get_state (url : string) (st : State pyfloat) :
  fst (get url st)
  = let started := request_start st in
    let ended := (started + request_time (length (requests st)))%Q in
    {| clock := ended;
       requests := requests st ++ [(url, started, ended)];
       scraper := {| min_pause := min_pause (scraper st); last_request := started |};
       events := events st; event_kind := event_kind st; files := files st;
       stdout := stdout st |}.
Proof. reflexivity. Qed.

(** C8, as the code has it.  [get] stamps [last_request] just before it
    sends the request, so the pause runs from the start of the previous
    request to the start of the next.  For two calls in a row, with
    [later] the state in which the second is made (same scraper and
    request log, any clock): the second request starts at least
    [min_pause] after the first started; a call that comes too soon
    sleeps for the remaining deficit (and however longer the sleep
    lasts), another does not sleep; and [last_request] becomes the start
    of the request just sent.  A new [Scraper] has a [min_pause] of one
    second. *)
Theorem get_paces_request_starts (u1 u2 : string) (st later : State pyfloat) :
  let st1 := fst (get u1 st) in
  let n := length (requests st1) in
  scraper later = scraper st1 ->
  requests later = requests st1 ->
  (0 <= oversleep n)%Q ->
  let st2 := fst (get u2 later) in
  let s1 := last_request (scraper st1) in
  let s2 := last_request (scraper st2) in
  let pause := min_pause (scraper st) in
  requests st2
    = requests st ++ [(u1, s1, (s1 + request_time (length (requests st)))%Q);
                      (u2, s2, (s2 + request_time n)%Q)] /\
  min_pause (scraper st2) = pause /\
  (s1 + pause <= s2)%Q /\
  (clock later <= s2)%Q /\
  ((clock later - s1 < pause)%Q ->
   (s2 == clock later + (pause - (clock later - s1)) + oversleep n)%Q) /\
  ((pause <= clock later - s1)%Q -> s2 = clock later) /\
  min_pause Scraper_init = 1%Q.
Proof.
  cbn zeta. intros Hs Hr Hover.
  rewrite (get_state u2 later). cbn [scraper requests last_request min_pause].
  unfold request_start. rewrite Hr, Hs.
  set (st1 := fst (get u1 st)) in *.
  assert (Hp : min_pause (scraper st1) = min_pause (scraper st)) by reflexivity.
  assert (Hq : requests st1
               = requests st ++ [(u1, last_request (scraper st1),
                                  (last_request (scraper st1)
                                   + request_time (length (requests st)))%Q)])
    by reflexivity.
  rewrite Hp. set (s1 := last_request (scraper st1)) in *.
  set (pause := min_pause (scraper st)) in *.
  destruct (Qle_bool pause (clock later - s1)) eqn:Hle.
  - apply Qle_bool_iff in Hle. repeat apply conj.
    + rewrite Hq at 1. now rewrite <- app_assoc.
    + reflexivity.
    + lra.
    + lra.
    + intros Hlt. lra.
    + reflexivity.
    + reflexivity.
  - assert (Hlt : (clock later - s1 < pause)%Q).
    { apply Qnot_le_lt. intros H. apply Qle_bool_iff in H. congruence. }
    repeat apply conj.
    + rewrite Hq at 1. now rewrite <- app_assoc.
    + reflexivity.
    + lra.
    + lra.
    + intros _. reflexivity.
    + intros H. lra.
    + reflexivity.
Qed.

End RunFacts.

(** ** The properties on the sample site *)

Section Examples.
Import Sample.

Lemma extract_discipline_data_decodes_witness :
  extract_discipline_data (placed "3." "71.5")
    = Ok (Some (PlacementData.make 3%Z (715 # 10)%Q)) /\
  extract_discipline_data dash = Ok None.
Proof.
  split.
  - apply (proj2 (extract_discipline_data_decodes (placed "3." "71.5"))).
    split; [discriminate|]. split; [reflexivity|].
    exists (Tag "span" [("title", AStr "71.5")] [NavigableString "3."]), "71.5".
    repeat split. simpl. now left.
  - apply (proj1 (extract_discipline_data_decodes dash)). reflexivity.
Defined.

Lemma extract_discipline_data_missing_title_witness :
  exists e, extract_discipline_data (td [] [NavigableString "3."]) = Raise e /\
    (is_Some (py_int (Str.rstrip "." (Bs4.text (td [] [NavigableString "3."]))))
     -> e = AssertionError).
Proof.
  apply (extract_discipline_data_missing_title (td [] [NavigableString "3."])).
  - discriminate.
  - intros d Hd. simpl in Hd. destruct Hd as [<-|[]]. reflexivity.
Defined.

Lemma car_kind_decodes_witness :
  car_kind (AStr "hybrid") = Raise (ValueError "Unknown car kind: hybrid") /\
  car_kind (AStr "electric") = Ok CarKind.ELECTRIC.
Proof.
  split.
  - apply (proj2 (proj2 (proj2 (car_kind_decodes "hybrid")))); discriminate.
  - apply (proj1 (car_kind_decodes "electric")). reflexivity.
Defined.

Lemma country_name_decodes_witness :
  country_name (td [("title", AStr "USA | Team A | B")] []) = Ok ("USA", "Team A | B") /\
  exists msg, country_name (td [("title", AStr "USA")] []) = Raise (ValueError msg).
Proof.
  split.
  - apply (proj1 (proj2 (country_name_decodes "td" [("title", AStr "USA | Team A | B")] []))
             "USA" "Team A | B"); reflexivity.
  - apply (proj2 (proj2 (country_name_decodes "td" [("title", AStr "USA")] [])) "USA");
      [reflexivity | discriminate].
Defined.

Lemma event_kind_classified_witness :
  classify None (InfoStr (Str.lower " Pure Electric event")) = Some EventKind.ELECTRIC /\
  classify (Some EventKind.MIXED) (InfoStr (Str.lower " Hybrid event"))
    = Some EventKind.MIXED.
Proof.
  split.
  - apply (proj1 (proj2 (proj2 (proj2 (proj2
             (event_kind_classified " Pure Electric event" None)))))
             " " "Pure Electric" " event"); reflexivity.
  - apply (proj1 (proj2 (proj2 (proj2
             (event_kind_classified " Hybrid event" (Some EventKind.MIXED))))));
      reflexivity.
Defined.

Lemma event_body_skips_known_witness :
  let st1 := fst (event_body "FSE" "https://fs-world.org/E" 205 start) in
  let r := event_body "FSC" "https://fs-world.org/C" 205 st1 in
  snd r = Ok tt /\
  requests (fst r) = requests st1 /\
  events (fst r) = events st1 /\
  files (fst r) = files st1 /\
  stdout (fst r) = stdout st1 ++ [skip_note "FSC" 205].
Proof.
  assert (Hok : snd (event_body "FSE" "https://fs-world.org/E" 205 start) = Ok tt)
    by (vm_compute; reflexivity).
  exact (proj2 (event_body_skips_known 205)
           "FSE" "https://fs-world.org/E" start
           "FSC" "https://fs-world.org/C"
           (fst (event_body "FSE" "https://fs-world.org/E" 205 start)) Hok eq_refl).
Defined.

Lemma event_body_all_or_nothing_witness :
  let r := event_body "FSE" "https://fs-world.org/E" 7 start in
  snd r = Raise (ValueError "Unknown car kind: hybrid") /\
  events (fst r) = [] /\ files (fst r) = ∅.
Proof.
  cbn zeta. split; [vm_compute; reflexivity|].
  apply (proj1 (event_body_all_or_nothing "FSE" "https://fs-world.org/E" 7 start eq_refl)
           (ValueError "Unknown car kind: hybrid")).
  vm_compute. reflexivity.
Defined.

Lemma events_keyed_and_growing_witness :
  key_is_id (events (fst (main start))) /\
  grows (events after_FSE)
        (events (fst (series_body "FSC" "https://fs-world.org/C" after_FSE))).
Proof.
  split.
  - exact (proj2 (proj2 (proj2 events_keyed_and_growing)) DATASETS 1000%Q ∅).
  - exact (proj2 (proj1 (proj2 events_keyed_and_growing)
                    "FSC" "https://fs-world.org/C" after_FSE)).
Defined.

Lemma series_summary_covers_all_events_witness :
  let r := series_body "FSC" "https://fs-world.org/C" after_FSE in
  files (fst r) !! "data/FSC.csv"
    = Some {| fieldnames := ["id"; "kind"; "name"; "teams"];
              rows := [ [CInt 101; CStr "ELECTRIC"; CStr "FS Alpha"; CInt 1];
                        [CInt 205; CStr "MIXED"; CStr "FS Mixed"; CInt 2];
                        [CInt 102; CStr "COMBUSTION"; CStr "FS Gamma"; CInt 0] ] |}.
Proof.
  cbn zeta.
  assert (Hok : snd (series_body "FSC" "https://fs-world.org/C" after_FSE) = Ok tt)
    by (vm_compute; reflexivity).
  destruct (series_summary_covers_all_events "FSC" "https://fs-world.org/C" after_FSE Hok)
    as [Hfile _].
  change (series_path "FSC") with "data/FSC.csv" in Hfile.
  rewrite Hfile. vm_compute. reflexivity.
Defined.

(** C8 as stated, with the pause counted from the end of the previous
    request, fails: with requests that take five seconds the second
    request leaves the moment the first has ended, not a second later. *)
Lemma paced_from_end_fails :
  ~ paced_from_end (W := world) "https://fs-world.org/E" "https://fs-world.org/E/101" start.
Proof.
  intros H.
  specialize (H 1000%Q 1005%Q 1005%Q 1010%Q).
  assert (Hlog : requests (fst (get (W := world) "https://fs-world.org/E/101"
                                  (fst (get (W := world) "https://fs-world.org/E" start))))
                 = requests start ++ [("https://fs-world.org/E", 1000%Q, 1005%Q);
                                      ("https://fs-world.org/E/101", 1005%Q, 1010%Q)])
    by (vm_compute; reflexivity).
  specialize (H Hlog). vm_compute in H. now apply H.
Qed.

Lemma get_paces_request_starts_witness :
  let st1 := fst (get (W := quick) "https://fs-world.org/E" start) in
  let st2 := fst (get (W := quick) "https://fs-world.org/E/101" st1) in
  requests st2 = [("https://fs-world.org/E", 1000%Q, (1000 + (1 # 4))%Q);
                  ("https://fs-world.org/E/101",
                   last_request (scraper st2), (last_request (scraper st2) + (1 # 4))%Q)] /\
  (1000 + 1 <= last_request (scraper st2))%Q.
Proof.
  cbn zeta.
  destruct (get_paces_request_starts (W := quick)
              "https://fs-world.org/E" "https://fs-world.org/E/101" start
              (fst (get (W := quick) "https://fs-world.org/E" start))
              eq_refl eq_refl (Qle_refl 0))
    as (Hlog & _ & Hgap & _).
  split; [exact Hlog | exact Hgap].
Defined.

End Examples.

(** * Further properties *)

(** ** Rows and files *)

Section RowFacts.
Context {pyfloat : Type} `{B : Builtins pyfloat}.

Lemma extract_results_cons (row : node) (rest : list node) :
  extract_results (row :: rest) =
  if is_header_row row then extract_results rest
  else match extract_team row with
       | Ok team =>
           match extract_results rest with
           | Ok teams => Ok (team :: teams)
           | Raise e => Raise e
           end
       | Raise e => Raise e
       end.
Proof.
  unfold is_header_row. simpl.
  destruct (Bs4.find (Bs4.named "th") row); reflexivity.
Qed.

(** X1.  The loop over the rows returns exactly when every row without a
    header cell decodes, and then the result lists the decoded teams of
    those rows, one per row and in the order of the page. *)
Theorem extract_results_rows (rows : list node) (teams : list (TeamData.t pyfloat)) :
  (extract_results rows = Ok teams <->
   Forall2 (fun row team => extract_team row = Ok team)
     (List.filter (fun row => negb (is_header_row row)) rows) teams) /\
  (extract_results rows = Ok teams ->
   length teams = length (List.filter (fun row => negb (is_header_row row)) rows)).
Proof.
  assert (Hiff : forall rs ts,
    extract_results rs = Ok ts <->
    Forall2 (fun row team => extract_team row = Ok team)
      (List.filter (fun row => negb (is_header_row row)) rs) ts).
  { clear rows teams. intros rs. induction rs as [|row rs IH]; intros teams.
    - simpl. split.
      + intros [= <-]. constructor.
      + intros H. inversion H. reflexivity.
    - rewrite extract_results_cons. simpl.
      destruct (is_header_row row); simpl; [apply IH|].
      destruct (extract_team row) as [team|e] eqn:Ht.
      + destruct (extract_results rs) as [ts|e] eqn:Hr; split.
        * intros [= <-]. constructor; [exact Ht | now apply IH].
        * intros H. inversion H as [|? t ? ts' Hrow Hrest]; subst.
          rewrite Ht in Hrow. injection Hrow as <-.
          apply IH in Hrest. now injection Hrest as <-.
        * discriminate.
        * intros H. inversion H as [|? t ? ts' Hrow Hrest]; subst.
          apply IH in Hrest. discriminate.
      + split; [discriminate|].
        intros H. inversion H as [|? t ? ts' Hrow Hrest]; subst.
        rewrite Ht in Hrow. discriminate. }
  split; [apply Hiff|].
  intros H. apply Hiff in H. symmetry. exact (Forall2_length _ _ _ H).
Qed.

(** X2.  The loop stops at the first row that fails: when the rows before
    it decode, the exception of that row is the exception of the loop,
    whatever comes after. *)
Theorem extract_results_first_failure (before after : list node) (row : node)
    (teams : list (TeamData.t pyfloat)) (e : exn) :
  extract_results before = Ok teams ->
  is_header_row row = false ->
  extract_team row = Raise e ->
  extract_results (before ++ row :: after) = Raise e.
Proof.
  revert teams. induction before as [|r before IH]; intros teams Hb Hh Hr.
  - simpl app. rewrite extract_results_cons, Hh, Hr. reflexivity.
  - simpl app. rewrite extract_results_cons in *.
    destruct (is_header_row r); [now apply (IH teams)|].
    destruct (extract_team r); [|discriminate].
    destruct (extract_results before) as [ts|] eqn:Hts; [|discriminate].
    now rewrite (IH ts).
Qed.

(** X3.  A row is decoded only when it has exactly twelve [td] cells
    below it: with any other number the assertion on the count fails
    before a cell is read. *)
Theorem extract_team_needs_12_columns (row : node) :
  (length (Bs4.find_all (Bs4.named "td") row) <> 12%nat ->
   extract_team row = Raise AssertionError) /\
  (forall team, extract_team row = Ok team ->
   length (Bs4.find_all (Bs4.named "td") row) = 12%nat).
Proof.
  unfold extract_team.
  destruct (Bs4.find_all (Bs4.named "td") row)
    as [|c0 [|c1 [|c2 [|c3 [|c4 [|c5 [|c6 [|c7 [|c8 [|c9 [|c10 [|c11 [|c12 l]]]]]]]]]]]]];
    split; try reflexivity; try discriminate.
  intros H. now elim H.
Qed.


Lemma discipline_cells_injective (d d' : DisciplineData pyfloat) :
  place_cell d = place_cell d' -> score_cell d = score_cell d' -> d = d'.
Proof.
  destruct d as [[p s]|], d' as [[p' s']|]; simpl; try discriminate; [|reflexivity].
  now intros [= ->] [= ->].
Qed.

Lemma CarKind_name_injective (k k' : CarKind.t) : CarKind.name k = CarKind.name k' -> k = k'.
Proof. destruct k, k'; simpl; (reflexivity || discriminate). Qed.

(** X5.  The row written for a team determines the team: two teams that
    give the same row are the same record, so the file keeps every
    field. *)
Theorem team_row_injective (t1 t2 : TeamData.t pyfloat) :
  team_row t1 = team_row t2 -> t1 = t2.
Proof.
  destruct t1, t2. unfold team_row. simpl. intros H.
  injection H as -> -> Hk -> Hc1 Hc2 Hb1 Hb2 He1 He2 Ha1 Ha2 Hs1 Hs2 Hx1 Hx2 Hn1 Hn2 Hf1 Hf2 -> ->.
  apply CarKind_name_injective in Hk as ->.
  rewrite (discipline_cells_injective _ _ Hc1 Hc2), (discipline_cells_injective _ _ Hb1 Hb2),
    (discipline_cells_injective _ _ He1 He2), (discipline_cells_injective _ _ Ha1 Ha2),
    (discipline_cells_injective _ _ Hs1 Hs2), (discipline_cells_injective _ _ Hx1 Hx2),
    (discipline_cells_injective _ _ Hn1 Hn2), (discipline_cells_injective _ _ Hf1 Hf2).
  reflexivity.
Qed.

Lemma rstrip_dots (n : nat) : Str.rstrip "." (dots n) = EmptyString.
Proof. induction n as [|n IH]; simpl; [reflexivity | now rewrite IH]. Qed.

Lemma rstrip_append_dots (s : string) (n : nat) :
  Str.rstrip "." (s +:+ dots n) = Str.rstrip "." s.
Proof.
  induction s as [|c s IH]; simpl.
  - apply rstrip_dots.
  - now rewrite IH.
Qed.

(** X13.  The place and the null test see the cell text without its
    trailing dots, however many there are: a dash followed by dots is
    null like a bare dash, and two cells whose texts differ only in
    trailing dots, with the same elements below them, decode alike. *)
Theorem extract_discipline_data_ignores_dots (col : node) (n : nat) :
  (Bs4.text col = "-" +:+ dots n -> extract_discipline_data col = Ok None) /\
  (forall col',
     Bs4.text col' = Bs4.text col +:+ dots n ->
     Bs4.find (Bs4.has_attr "title") col' = Bs4.find (Bs4.has_attr "title") col ->
     extract_discipline_data col' = extract_discipline_data col).
Proof.
  split.
  - intros H. unfold extract_discipline_data.
    now rewrite H, rstrip_append_dots.
  - intros col' Ht Hf. unfold extract_discipline_data.
    now rewrite Ht, rstrip_append_dots, Hf.
Qed.

End RowFacts.

(** ** Invariants of the whole run *)

Section FrameFacts.
Context {pyfloat : Type} `{B : Builtins pyfloat} `{W : World}.

Lemma keeps_read (R : State pyfloat -> State pyfloat -> Prop) {A}
    (f : State pyfloat -> A) :
  (forall st, R st st) -> keeps R (read f).
Proof. intros Hrefl st. apply Hrefl. Qed.

(** A relation that every effect of the script keeps is kept by the whole
    run: the fetch, the two prints, the assignment to [event_kind], the
    store of a new event, and the summary of each series. *)
Section Frame.
Variable R : State pyfloat -> State pyfloat -> Prop.
Variable fine : string -> Prop.
Hypothesis R_refl : forall st, R st st.
Hypothesis R_trans : forall a b c, R a b -> R b c -> R a c.
Hypothesis R_get : forall url, keeps R (get url).
Hypothesis R_print : forall line, keeps R (print line).
Hypothesis R_kind : forall k, keeps R (set_event_kind k).
Hypothesis R_store : forall event st,
  Dict.mem (EventData.id event) (events st) = false ->
  R st (fst (store_event event st)).
Hypothesis R_summary : forall wrl_kind, fine wrl_kind -> keeps R (write_summary wrl_kind).

Lemma read_event_keeps (wrl_kind url : string) (event_id : Z) :
  keeps R (read_event wrl_kind url event_id).
Proof.
  unfold read_event.
  apply (keeps_bind _ R_trans); [apply R_get|]. intros soup.
  apply (keeps_bind _ R_trans); [apply (keeps_lift _ R_refl)|]. intros heading.
  apply (keeps_bind _ R_trans); [apply (keeps_read _ _ R_refl)|]. intros prev.
  apply (keeps_bind _ R_trans); [apply R_kind|]. intros _.
  apply (keeps_bind _ R_trans); [apply (keeps_read _ _ R_refl)|]. intros bound.
  apply (keeps_bind _ R_trans); [apply (keeps_lift _ R_refl)|]. intros kind.
  apply (keeps_bind _ R_trans); [apply R_print|]. intros _.
  apply (keeps_bind _ R_trans); [apply (keeps_lift _ R_refl)|]. intros table.
  apply (keeps_bind _ R_trans); [apply (keeps_lift _ R_refl)|]. intros results.
  apply (keeps_ret _ R_refl).
Qed.

Lemma event_body_keeps (wrl_kind url : string) (event_id : Z) :
  keeps R (event_body wrl_kind url event_id).
Proof.
  intros st.
  pose proof (read_event_cases wrl_kind url event_id st) as Hread.
  pose proof (read_event_keeps wrl_kind url event_id st) as Hkeep.
  cbn zeta in Hread. destruct Hread as (Hev & _ & _ & Hok).
  unfold event_body, mbind, M_bind, read. cbn [fst snd].
  destruct (Dict.mem event_id (events st)) eqn:Hmem; [apply R_print|].
  destruct (read_event wrl_kind url event_id st) as [st1 [event|e]];
    cbn [fst snd] in *; [|exact Hkeep].
  destruct (Hok event eq_refl) as [Hid _].
  apply (R_trans _ _ _ Hkeep). apply R_store. now rewrite Hid, Hev.
Qed.

Lemma ids_loop_keeps (wrl_kind url : string) (options : list node) :
  keeps R (ids_loop wrl_kind url options).
Proof.
  apply (keeps_for_each _ R_refl R_trans). intros x.
  apply (keeps_bind _ R_trans); [apply (keeps_lift _ R_refl)|].
  intros event_id. apply event_body_keeps.
Qed.

Lemma series_events_keeps (wrl_kind url : string) :
  keeps R (series_events wrl_kind url).
Proof.
  unfold series_events.
  apply (keeps_bind _ R_trans); [apply R_get|]. intros soup.
  apply (keeps_bind _ R_trans); [apply (keeps_lift _ R_refl)|].
  intros event_select. apply ids_loop_keeps.
Qed.

Lemma series_body_keeps (wrl_kind url : string) :
  fine wrl_kind -> keeps R (series_body wrl_kind url).
Proof.
  intros Hfine. unfold series_body.
  apply (keeps_bind _ R_trans); [apply series_events_keeps|].
  intros _. now apply R_summary.
Qed.

Lemma run_keeps (datasets : list (string * string)) :
  Forall (fun d => fine (fst d)) datasets -> keeps R (run datasets).
Proof.
  intros Hfine. unfold run.
  apply (keeps_bind _ R_trans); [apply R_print|]. intros _.
  induction Hfine as [|d ds Hd _ IH]; simpl.
  - apply (keeps_ret _ R_refl).
  - apply (keeps_bind _ R_trans); [now apply series_body_keeps | intros _; exact IH].
Qed.

End Frame.

(** *** Pacing of every request *)

Lemma request_start_paced (st : State pyfloat) :
  (0 <= oversleep (length (requests st)))%Q ->
  (last_request (scraper st) + min_pause (scraper st) <= request_start st)%Q.
Proof.
  intros Hover. unfold request_start. cbn zeta.
  destruct (Qle_bool _ _) eqn:Hle.
  - apply Qle_bool_iff in Hle. lra.
  - lra.
Qed.

Lemma get_pacing (url : string) (p : Q) (st : State pyfloat) :
  (forall n, 0 <= oversleep n)%Q -> pacing p st -> pacing p (fst (get url st)).
Proof.
  intros Hover (Hp & Hlog & Hsync).
  rewrite get_state. cbn zeta. unfold pacing, scraper_synced.
  cbn [scraper requests min_pause last_request]. repeat apply conj.
  - exact Hp.
  - intros i u1 s1 e1 u2 s2 e2 H1 H2.
    destruct (decide (S i < length (requests st))%nat) as [Hlt|Hge].
    + rewrite lookup_app_l in H1 by lia. rewrite lookup_app_l in H2 by lia.
      exact (Hlog _ _ _ _ _ _ _ H1 H2).
    + assert (Hi : (i < length (requests st))%nat).
      { apply lookup_lt_Some in H2. rewrite length_app in H2. simpl in H2. lia. }
      assert (HS : S i = length (requests st)) by lia.
      rewrite lookup_app_l in H1 by lia.
      rewrite lookup_app_r in H2 by lia.
      replace (S i - length (requests st))%nat with 0%nat in H2 by lia.
      injection H2 as <- <- <-.
      assert (Hlast : last (requests st) = Some (u1, s1, e1)).
      { rewrite last_lookup. replace (pred (length (requests st))) with i by lia.
        exact H1. }
      rewrite <- (Hsync _ _ _ Hlast), <- Hp.
      apply request_start_paced, Hover.
  - intros u s e. rewrite last_snoc. now intros [= _ <- _].
Qed.

(** X7.  When no sleep ends early, every request of a run, to a listing
    or to an event page, starts at least [min_pause] after the request
    before it started; from the first state of the script that is one
    second. *)
Theorem run_requests_paced (datasets : list (string * string)) :
  (forall n, 0 <= oversleep n)%Q ->
  (forall p st, pacing p st -> pacing p (fst (run datasets st))) /\
  (forall now disk,
     starts_paced 1 (requests (fst (run datasets (initial now disk))))).
Proof.
  intros Hover.
  assert (Hrun : forall p st, pacing p st -> pacing p (fst (run datasets st))).
  { intros p st Hst.
    refine (run_keeps (fun a b => forall q, pacing q a -> pacing q b) (fun _ => True)
              _ _ _ _ _ _ _ datasets _ st p Hst).
    - now intros a q.
    - intros a b c Hab Hbc q Hq. apply Hbc, Hab, Hq.
    - intros url a q Hq. now apply get_pacing.
    - intros line a q Hq. exact Hq.
    - intros k a q Hq. exact Hq.
    - intros event a _ q Hq. exact Hq.
    - intros wrl_kind _ a q Hq. exact Hq.
    - apply Forall_forall. now intros. }
  split; [exact Hrun|].
  intros now disk. apply (Hrun 1%Q (initial now disk)).
  repeat split.
  - intros i u1 s1 e1 u2 s2 e2 H1. discriminate H1.
  - intros u s e H. discriminate H.
Qed.

(** *** The keys of [events] *)

Lemma dict_mem_false_fresh {V} (k : Z) (d : list (Z * V)) :
  Dict.mem k d = false -> k ∉ map fst d.
Proof.
  unfold Dict.mem. induction d as [|[k' v] d IH]; simpl.
  - intros _. apply not_elem_of_nil.
  - destruct (Z.eqb_spec k' k) as [->|Hne]; [discriminate|].
    intros H. apply not_elem_of_cons. split; [congruence | now apply IH].
Qed.

Lemma store_event_keys_unique (event : EventData.t pyfloat) (st : State pyfloat) :
  Dict.mem (EventData.id event) (events st) = false ->
  keys_unique (events st) -> keys_unique (events (fst (store_event event st))).
Proof.
  intros Hmem [Hnd Hid]. unfold store_event, mbind, M_bind, events_set, write_file.
  cbn [fst snd events]. rewrite (dict_set_new _ _ _ Hmem). split.
  - rewrite map_app. simpl. apply NoDup_app. repeat split.
    + exact Hnd.
    + intros x Hx Hin. apply list_elem_of_singleton in Hin as ->.
      now apply (dict_mem_false_fresh _ _ Hmem).
    + apply NoDup_singleton.
  - apply Forall_app. split; [exact Hid|]. now apply Forall_singleton.
Qed.

Lemma keys_unique_ids (d : list (Z * EventData.t pyfloat)) :
  keys_unique d -> map (fun e => EventData.id e) (Dict.values d) = map fst d.
Proof.
  intros [_ Hid]. unfold Dict.values.
  induction Hid as [|[k e] d Hke _ IH]; simpl; [reflexivity|].
  simpl in Hke. now rewrite Hke, IH.
Qed.

Lemma NoDup_map_through {A C D} (f : A -> C) (g : A -> D) (l : list A) :
  (forall x y, g x = g y -> f x = f y) -> NoDup (map f l) -> NoDup (map g l).
Proof.
  intros Hfg. induction l as [|a l IH]; simpl; intros H.
  - constructor.
  - apply NoDup_cons in H as [Ha Hl]. apply NoDup_cons. split; [|now apply IH].
    intros Hin. apply Ha.
    apply list_elem_of_In, in_map_iff in Hin as (y & Hy & Hyl).
    apply list_elem_of_In, in_map_iff. exists y. split; [now apply Hfg | exact Hyl].
Qed.

(** X8.  [events] never holds a key twice and files every event under
    its own id, at the end of every run and after every step that
    starts from such a mapping; so the rows of a summary carry the keys
    in insertion order as their ids, and no event is listed twice. *)
Theorem events_keys_unique (datasets : list (string * string)) :
  (forall st, keys_unique (events st) -> keys_unique (events (fst (run datasets st)))) /\
  (forall now disk, keys_unique (events (fst (run datasets (initial now disk))))) /\
  (forall wrl_kind url st,
     keys_unique (events st) -> keys_unique (events (fst (series_body wrl_kind url st)))) /\
  (forall d : list (Z * EventData.t pyfloat),
     keys_unique d ->
     map (fun e => EventData.id e) (Dict.values d) = map fst d /\
     NoDup (rows (summary_csv (Dict.values d)))).
Proof.
  set (R := fun a b : State pyfloat => keys_unique (events a) -> keys_unique (events b)).
  assert (R_refl : forall st, R st st) by (intros st H; exact H).
  assert (R_trans : forall a b c, R a b -> R b c -> R a c)
    by (intros a b c Hab Hbc H; apply Hbc, Hab, H).
  assert (R_same : forall a b, events b = events a -> R a b)
    by (intros a b E H; now rewrite E).
  assert (Hrun : forall st, R st (fst (run datasets st))).
  { apply (run_keeps R (fun _ => True) R_refl R_trans).
    - intros url st. now apply R_same.
    - intros line st. now apply R_same.
    - intros k st. now apply R_same.
    - intros event st Hmem H. now apply store_event_keys_unique.
    - intros wrl_kind _ st. now apply R_same.
    - apply Forall_forall. now intros. }
  repeat apply conj.
  - exact Hrun.
  - intros now disk. apply (Hrun (initial now disk)). split; constructor.
  - intros wrl_kind url.
    apply (series_body_keeps R (fun _ => True) R_refl R_trans); [| | | | |exact I].
    + intros u st. now apply R_same.
    + intros line st. now apply R_same.
    + intros k st. now apply R_same.
    + intros event st Hmem H. now apply store_event_keys_unique.
    + intros w _ st. now apply R_same.
  - intros d H. split; [now apply keys_unique_ids|].
    simpl. apply (NoDup_map_through (fun e => EventData.id e)).
    + unfold summary_row. now intros x y [= -> _ _ _].
    + rewrite (keys_unique_ids _ H). apply H.
Qed.

(** *** Files *)






(** X10.  The script removes no file: whatever path holds a file before
    a run, an event or a series holds one after it, returning or
    raising. *)
Theorem files_never_removed (datasets : list (string * string)) (st : State pyfloat) :
  files_kept st (fst (run datasets st)) /\
  (forall wrl_kind url, files_kept st (fst (series_body wrl_kind url st))) /\
  (forall wrl_kind url event_id,
     files_kept st (fst (event_body wrl_kind url event_id st))).
Proof.
  assert (R_refl : forall a : State pyfloat, files_kept a a) by (now intros a path).
  assert (R_trans : forall a b c : State pyfloat,
            files_kept a b -> files_kept b c -> files_kept a c)
    by (intros a b c Hab Hbc path H; apply Hbc, Hab, H).
  assert (R_get : forall url, keeps (@files_kept pyfloat) (get url)) by (intros url a path H; exact H).
  assert (R_print : forall line, keeps (@files_kept pyfloat) (print line))
    by (intros line a path H; exact H).
  assert (R_kind : forall k, keeps (@files_kept pyfloat) (set_event_kind k))
    by (intros k a path H; exact H).
  assert (R_store : forall (event : EventData.t pyfloat) (a : State pyfloat),
            Dict.mem (EventData.id event) (events a) = false ->
            files_kept a (fst (store_event event a))).
  { intros event a _ path H. unfold store_event, mbind, M_bind, events_set, write_file.
    cbn [fst snd files]. apply lookup_insert_is_Some'. now right. }
  assert (R_summary : forall wrl_kind, True -> keeps (@files_kept pyfloat) (write_summary wrl_kind)).
  { intros wrl_kind _ a path H. unfold write_summary, mbind, M_bind, read, write_file.
    cbn [fst snd files]. apply lookup_insert_is_Some'. now right. }
  repeat apply conj.
  - apply (run_keeps (@files_kept pyfloat) (fun _ => True)); auto.
    apply Forall_forall. now intros.
  - intros wrl_kind url.
    now apply (series_body_keeps (@files_kept pyfloat) (fun _ => True)).
  - intros wrl_kind url event_id.
    now apply (event_body_keeps files_kept).
Qed.

End FrameFacts.

(** ** Where a run stops *)

Section ControlFacts.
Context {pyfloat : Type} `{B : Builtins pyfloat} `{W : World}.

Ltac script_steps :=
  unfold read_event, store_event, event_body, write_summary, series_body,
    series_events, mbind, M_bind, mret, M_ret, get, lift, read, set_event_kind,
    print, events_set, write_file, from_option;
  cbn [fst snd clock requests scraper events event_kind files stdout].

Lemma for_each_app {A} (body : A -> M pyfloat unit) (l1 l2 : list A) (st : State pyfloat) :
  for_each body (l1 ++ l2) st =
  match for_each body l1 st with
  | (st1, Ok _) => for_each body l2 st1
  | (st1, Raise e) => (st1, Raise e)
  end.
Proof.
  revert st. induction l1 as [|x l1 IH]; intros st; simpl; [reflexivity|].
  unfold mbind, M_bind. destruct (body x st) as [st1 [[]|e]]; [apply IH | reflexivity].
Qed.

(** X6.  An id that [events] does not hold costs exactly one request, to
    [<url>/<id>], whether the page then decodes or not. *)
Theorem event_body_one_request (wrl_kind url : string) (event_id : Z) (st : State pyfloat) :
  Dict.mem event_id (events st) = false ->
  requests (fst (event_body wrl_kind url event_id st))
  = requests st ++ [(event_url url event_id, request_start st,
                     (request_start st + request_time (length (requests st)))%Q)].
Proof.
  intros Hmem. unfold event_body. script_steps. rewrite Hmem.
  unfold request_start. cbn zeta.
  destruct (web (length (requests st)) (event_url url event_id)) as [soup|];
    cbn; [|reflexivity].
  destruct (event_heading soup) as [[name info]|]; cbn; [|reflexivity].
  destruct (classify (event_kind st) info) as [kind|]; cbn; [|reflexivity].
  destruct (results_table soup) as [table|]; cbn; [|reflexivity].
  destruct (extract_results _) as [results|]; cbn; reflexivity.
Qed.

(** X12.  A request the transport fails on ends the series, or the event,
    with [ConnectionError] in the state the fetch left: the request is
    logged and paced, and [events], the files and the output are as
    before. *)
Theorem transport_failure_aborts (wrl_kind url : string) (st : State pyfloat) :
  (web (length (requests st)) url = None ->
   series_body wrl_kind url st = (fst (get url st), Raise ConnectionError)) /\
  (forall event_id,
     Dict.mem event_id (events st) = false ->
     web (length (requests st)) (event_url url event_id) = None ->
     event_body wrl_kind url event_id st
     = (fst (get (event_url url event_id) st), Raise ConnectionError)) /\
  (forall u, events (fst (get u st)) = events st /\
             files (fst (get u st)) = files st /\
             stdout (fst (get u st)) = stdout st).
Proof.
  repeat apply conj.
  - intros Hweb. unfold series_body, series_events. script_steps. now rewrite Hweb.
  - intros event_id Hmem Hweb. unfold event_body. script_steps.
    now rewrite Hmem, Hweb.
  - intros u. now rewrite get_state.
Qed.

(** X14.  An event page must have exactly one [h4], and something after
    it: otherwise the event ends with [AssertionError] right after the
    fetch, before the kind is assigned or the progress line printed. *)
Theorem read_event_needs_one_h4 (wrl_kind url : string) (event_id : Z)
    (st : State pyfloat) (soup : node) :
  web (length (requests st)) (event_url url event_id) = Some soup ->
  (length (Bs4.find_all_located (Bs4.named "h4") soup) <> 1%nat \/
   exists h, Bs4.find_all_located (Bs4.named "h4") soup = [(h, [])]) ->
  read_event wrl_kind url event_id st
  = (fst (get (event_url url event_id) st), Raise AssertionError).
Proof.
  intros Hweb Hh4. script_steps. rewrite Hweb. cbn.
  assert (Hhead : event_heading soup = Raise AssertionError).
  { unfold event_heading. destruct Hh4 as [Hlen|[h ->]]; [|reflexivity].
    destruct (Bs4.find_all_located (Bs4.named "h4") soup) as [|h [|h' l]];
      try reflexivity. now elim Hlen. }
  now rewrite Hhead.
Qed.

(** X11.  The ids of a listing are read one by one as the loop reaches
    them: when an option's value is no integer (or is missing), the
    events listed before it have been handled first, the series ends
    with the exception of that option, and its summary is not written. *)
Theorem series_stops_at_bad_option (wrl_kind url : string) (st st' : State pyfloat)
    (soup event_select bad : node) (before after : list node) (e : exn) :
  web (length (requests st)) url = Some soup ->
  Bs4.find (Bs4.attr_is "id" "WorldEvents") soup = Some event_select ->
  Bs4.find_all (Bs4.named "option") event_select = before ++ bad :: after ->
  option_id bad = Raise e ->
  ids_loop wrl_kind url before (fst (get url st)) = (st', Ok tt) ->
  series_body wrl_kind url st = (st', Raise e).
Proof.
  intros Hweb Hsel Hopts Hbad Hbefore.
  unfold series_body, series_events. unfold mbind at 1 2 3, M_bind.
  assert (Hget : get url st = (fst (get url st), Ok soup)).
  { unfold get, from_option. cbn zeta. now rewrite Hweb. }
  rewrite Hget. unfold lift at 1. rewrite Hsel. cbn [from_option].
  rewrite Hopts.
  change (for_each _ (before ++ bad :: after))
    with (ids_loop wrl_kind url (before ++ bad :: after)).
  unfold ids_loop in *. rewrite for_each_app, Hbefore.
  simpl. unfold mbind, M_bind, lift. now rewrite Hbad.
Qed.

(** X16.  The first series that raises ends the run with its exception,
    in the state it left: the series after it are not fetched and get
    no summary. *)
Theorem run_stops_at_first_failure (before after : list (string * string))
    (d : string * string) (st st1 st2 : State pyfloat) (e : exn) :
  run before st = (st1, Ok tt) ->
  series_body (fst d) (snd d) st1 = (st2, Raise e) ->
  run (before ++ d :: after) st = (st2, Raise e).
Proof.
  unfold run, mbind, M_bind. intros Hbefore Hd.
  destruct (print _ st) as [st0 [[]|e0]]; [|discriminate].
  rewrite for_each_app, Hbefore. simpl. unfold mbind, M_bind. now rewrite Hd.
Qed.

End ControlFacts.

(** ** Edges of a series and of an event *)

Section EdgeFacts.
Context {pyfloat : Type} `{B : Builtins pyfloat} `{W : World}.

Lemma find_next_sibling_split (p : node -> bool) (following : list node) (t : node) :
  Bs4.find_next_sibling p following = Some t ->
  exists skipped rest,
    following = skipped ++ t :: rest /\
    Bs4.is_tag t && p t = true /\
    Forall (fun n => Bs4.is_tag n && p n = false) skipped.
Proof.
  unfold Bs4.find_next_sibling.
  induction following as [|n following IH]; simpl; [discriminate|].
  destruct (Bs4.is_tag n && p n) eqn:Hn.
  - simpl. intros [= ->]. exists [], following. repeat split; auto.
  - intros H. destruct (IH H) as (skipped & rest & -> & Ht & Hskip).
    exists (n :: skipped), rest. repeat split; auto.
Qed.

(** X15.  The table that is decoded is one of the siblings that follow
    the first element with id "results": it is a [table] whose class
    holds "wrl_table", and the first such sibling; a table anywhere else
    on the page is not looked at. *)
Theorem results_table_follows_anchor (soup table : node) :
  results_table soup = Ok table ->
  exists header following skipped rest,
    Bs4.find_located (Bs4.attr_is "id" "results") soup = Some (header, following) /\
    following = skipped ++ table :: rest /\
    Bs4.named "table" table = true /\
    Bs4.attr_is "class" "wrl_table" table = true /\
    Forall (fun n => Bs4.is_tag n && (Bs4.named "table" n
                     && Bs4.attr_is "class" "wrl_table" n) = false) skipped.
Proof.
  unfold results_table, mbind, result_bind, from_option.
  destruct (Bs4.find_located _ soup) as [[header following]|]; [|discriminate].
  cbn [snd].
  destruct (Bs4.find_next_sibling _ following) as [t|] eqn:Hf; [|discriminate].
  intros [= ->].
  destruct (find_next_sibling_split _ _ _ Hf) as (skipped & rest & -> & Ht & Hskip).
  apply andb_true_iff in Ht as [_ Ht]. apply andb_true_iff in Ht as [Hname Hclass].
  exists header, (skipped ++ table :: rest), skipped, rest. repeat split; auto.
Qed.

(** X17.  The first request of a run is sent at once when the clock
    reads at least one second, as any wall clock does: [last_request]
    starts at zero. *)
Theorem first_request_immediate (url : string) (now : Q) (disk : gmap string (csv pyfloat)) :
  (1 <= now)%Q ->
  requests (fst (get url (initial now disk)))
  = [(url, now, (now + request_time 0)%Q)].
Proof.
  intros Hnow. rewrite get_state. cbn zeta. unfold request_start.
  cbn [initial requests scraper clock Scraper_init min_pause last_request length app].
  assert (Hle : Qle_bool 1 (now - 0) = true) by (apply Qle_bool_iff; lra).
  now rewrite Hle.
Qed.

Lemma event_body_unfold (wrl_kind url : string) (event_id : Z) (st : State pyfloat) :
  event_body wrl_kind url event_id st =
  if Dict.mem event_id (events st) then print (skip_note wrl_kind event_id) st
  else match read_event wrl_kind url event_id st with
       | (st1, Ok event) => store_event event st1
       | (st1, Raise e) => (st1, Raise e)
       end.
Proof.
  unfold event_body, mbind at 1, M_bind at 1, read. cbn [fst snd].
  destruct (Dict.mem event_id (events st)); reflexivity.
Qed.

(** X18.  An event that is handled to the end leaves exactly one line of
    output: the skip note for a known id, and for a new id the progress
    line carrying the name and the kind under which it was stored. *)
Theorem event_body_one_line (wrl_kind url : string) (event_id : Z) (st : State pyfloat) :
  snd (event_body wrl_kind url event_id st) = Ok tt ->
  (Dict.mem event_id (events st) = true /\
   stdout (fst (event_body wrl_kind url event_id st))
   = stdout st ++ [skip_note wrl_kind event_id]) \/
  (Dict.mem event_id (events st) = false /\
   exists event,
     Dict.get event_id (events (fst (event_body wrl_kind url event_id st))) = Some event /\
     stdout (fst (event_body wrl_kind url event_id st))
     = stdout st ++ [wrl_kind +:+ "/" +:+ pretty event_id +:+ ": "
                     +:+ EventData.name event
                     +:+ " (" +:+ EventKind.str (EventData.kind event) +:+ ")"]).
Proof.
  rewrite !event_body_unfold.
  destruct (Dict.mem event_id (events st)) eqn:Hmem.
  - intros _. left. split; reflexivity.
  - intros Hok. right. split; [reflexivity|]. revert Hok.
    unfold read_event, store_event, mbind, M_bind, mret, M_ret, get, lift, read,
      set_event_kind, print, events_set, write_file, from_option.
    cbn [fst snd clock requests scraper events event_kind files stdout].
    destruct (web _ _) as [soup|]; cbn; [|discriminate].
    destruct (event_heading soup) as [[name info]|]; cbn; [|discriminate].
    destruct (classify (event_kind st) info) as [kind|]; cbn; [|discriminate].
    destruct (results_table soup) as [table|]; cbn; [|discriminate].
    destruct (extract_results _) as [results|]; cbn; [|discriminate].
    intros _. eexists. split; [apply dict_get_set_eq | reflexivity].
Qed.

(** X19.  A listing without an element with id "WorldEvents" ends the
    series with [AssertionError] right after its fetch: no event is
    requested and no summary written. *)
Theorem series_needs_event_select (wrl_kind url : string) (st : State pyfloat)
    (soup : node) :
  web (length (requests st)) url = Some soup ->
  Bs4.find (Bs4.attr_is "id" "WorldEvents") soup = None ->
  series_body wrl_kind url st = (fst (get url st), Raise AssertionError).
Proof.
  intros Hweb Hsel.
  unfold series_body, series_events, mbind, M_bind, get, lift, from_option.
  cbn zeta. now rewrite Hweb, Hsel.
Qed.

(** X20.  A listing that offers no option costs one request and no more;
    the summary of the series is still written, with the events of the
    series before it. *)
Theorem series_with_no_options (wrl_kind url : string) (st : State pyfloat)
    (soup event_select : node) :
  web (length (requests st)) url = Some soup ->
  Bs4.find (Bs4.attr_is "id" "WorldEvents") soup = Some event_select ->
  Bs4.find_all (Bs4.named "option") event_select = [] ->
  series_body wrl_kind url st = write_summary wrl_kind (fst (get url st)) /\
  snd (series_body wrl_kind url st) = Ok tt /\
  events (fst (series_body wrl_kind url st)) = events st /\
  files (fst (series_body wrl_kind url st))
  = <[series_path wrl_kind := summary_csv (Dict.values (events st))]> (files st) /\
  length (requests (fst (series_body wrl_kind url st))) = S (length (requests st)).
Proof.
  intros Hweb Hsel Hopts.
  assert (E : series_body wrl_kind url st = write_summary wrl_kind (fst (get url st))).
  { unfold series_body, series_events. unfold mbind at 1 2 3, M_bind.
    assert (Hget : get url st = (fst (get url st), Ok soup)).
    { unfold get, from_option. cbn zeta. now rewrite Hweb. }
    rewrite Hget. unfold lift. rewrite Hsel. cbn [from_option]. now rewrite Hopts. }
  rewrite E. split; [reflexivity|].
  unfold write_summary, mbind, M_bind, read, write_file. rewrite get_state.
  cbn. rewrite length_app. simpl. repeat split; lia.
Qed.

End EdgeFacts.

(** ** The further properties on the sample sites *)

Section MoreExamples.
Import Sample.

Lemma extract_results_rows_witness :
  Forall2 (fun row team => extract_team row = Ok team)
    (List.filter (fun row => negb (is_header_row row)) [header_row; alpha_row])
    [alpha_team].
Proof.
  apply (proj1 (proj1 (extract_results_rows [header_row; alpha_row] [alpha_team]))).
  vm_compute. reflexivity.
Defined.

Lemma extract_results_first_failure_witness :
  extract_results ([header_row; alpha_row] ++ hybrid_row :: [alpha_row])
  = Raise (ValueError "Unknown car kind: hybrid").
Proof.
  apply (extract_results_first_failure [header_row; alpha_row] [alpha_row] hybrid_row
           [alpha_team]); vm_compute; reflexivity.
Defined.

Lemma extract_team_needs_12_columns_witness :
  extract_team short_row = Raise AssertionError.
Proof.
  apply (proj1 (extract_team_needs_12_columns short_row)).
  vm_compute. discriminate.
Defined.


Lemma team_row_injective_witness :
  alpha_team
  = TeamData.make "Team Alpha" "USA" CarKind.ELECTRIC 1
      None None None None None None None None (0 # 1)%Q (350 # 1)%Q.
Proof. apply team_row_injective. reflexivity. Defined.

Lemma extract_discipline_data_ignores_dots_witness :
  extract_discipline_data (td [] [NavigableString "-.."]) = Ok None.
Proof.
  apply (proj1 (extract_discipline_data_ignores_dots (td [] [NavigableString "-.."]) 2)).
  reflexivity.
Defined.

Lemma event_body_one_request_witness :
  requests (fst (event_body "FSE" "https://fs-world.org/E" 101 start))
  = requests start
    ++ [(event_url "https://fs-world.org/E" 101, request_start start,
         (request_start start + request_time (length (requests start)))%Q)].
Proof.
  exact (event_body_one_request "FSE" "https://fs-world.org/E" 101 start eq_refl).
Defined.

Lemma run_requests_paced_witness :
  starts_paced 1 (requests (fst (run (W := quick) DATASETS (initial 1000%Q ∅)))).
Proof.
  apply (proj2 (run_requests_paced (W := quick) DATASETS
                  (fun _ => Qle_refl 0)) 1000%Q ∅).
Defined.

Lemma events_keys_unique_witness :
  keys_unique (events (fst (run DATASETS (initial 1000%Q ∅)))).
Proof. exact (proj1 (proj2 (events_keys_unique DATASETS)) 1000%Q ∅). Defined.



Lemma files_never_removed_witness :
  is_Some (files (fst (run DATASETS start_with_file)) !! "data/old.csv").
Proof.
  apply (proj1 (files_never_removed DATASETS start_with_file) "data/old.csv").
  exists (summary_csv []). apply lookup_singleton_eq.
Defined.

Lemma series_stops_at_bad_option_witness :
  series_body (W := world_bad) "X" "https://fs-world.org/X" start
  = (fst (ids_loop (W := world_bad) "X" "https://fs-world.org/X" [option_tag "101"]
            (fst (get (W := world_bad) "https://fs-world.org/X" start))),
     Raise (ValueError "invalid literal for int() with base 10")).
Proof.
  apply (series_stops_at_bad_option (W := world_bad) "X" "https://fs-world.org/X" start _
           (listing ["101"; "abc"; "205"])
           (Tag "select" [("id", AStr "WorldEvents")]
              [option_tag "101"; option_tag "abc"; option_tag "205"])
           (option_tag "abc") [option_tag "101"] [option_tag "205"]).
  - reflexivity.
  - reflexivity.
  - reflexivity.
  - reflexivity.
  - vm_compute. reflexivity.
Defined.

Lemma transport_failure_aborts_witness :
  series_body "ZZ" "https://nowhere.example" start
  = (fst (get "https://nowhere.example" start), Raise ConnectionError).
Proof.
  exact (proj1 (transport_failure_aborts "ZZ" "https://nowhere.example" start) eq_refl).
Defined.

Lemma read_event_needs_one_h4_witness :
  read_event (W := world_bad) "X" "https://fs-world.org/X" 9 start
  = (fst (get (W := world_bad) (event_url "https://fs-world.org/X" 9) start),
     Raise AssertionError).
Proof.
  apply (read_event_needs_one_h4 (W := world_bad) "X" "https://fs-world.org/X" 9 start
           (Tag "[document]" [] [NavigableString "nothing here"])).
  - vm_compute. reflexivity.
  - left. vm_compute. discriminate.
Defined.

Lemma results_table_follows_anchor_witness :
  exists header following skipped rest,
    Bs4.find_located (Bs4.attr_is "id" "results")
      (event_page "FS Alpha" " Pure Electric event" [alpha_row])
    = Some (header, following) /\
    following
    = skipped ++ Tag "table" [("class", AList ["wrl_table"])] [header_row; alpha_row]
              :: rest /\
    Bs4.named "table"
      (Tag "table" [("class", AList ["wrl_table"])] [header_row; alpha_row]) = true /\
    Bs4.attr_is "class" "wrl_table"
      (Tag "table" [("class", AList ["wrl_table"])] [header_row; alpha_row]) = true /\
    Forall (fun n => Bs4.is_tag n && (Bs4.named "table" n
                     && Bs4.attr_is "class" "wrl_table" n) = false) skipped.
Proof.
  apply (results_table_follows_anchor
           (event_page "FS Alpha" " Pure Electric event" [alpha_row])).
  vm_compute. reflexivity.
Defined.

Lemma run_stops_at_first_failure_witness :
  run ([("FSE", "https://fs-world.org/E")]
       ++ ("BAD", "https://nowhere.example") :: [("FSC", "https://fs-world.org/C")]) start
  = (fst (series_body "BAD" "https://nowhere.example"
            (fst (run [("FSE", "https://fs-world.org/E")] start))),
     Raise ConnectionError).
Proof.
  apply (run_stops_at_first_failure [("FSE", "https://fs-world.org/E")]
           [("FSC", "https://fs-world.org/C")] ("BAD", "https://nowhere.example")
           start (fst (run [("FSE", "https://fs-world.org/E")] start))).
  - vm_compute. reflexivity.
  - vm_compute. reflexivity.
Defined.

Lemma first_request_immediate_witness :
  requests (fst (get "https://fs-world.org/E" (initial (pyfloat := Q) 1000%Q ∅)))
  = [("https://fs-world.org/E", 1000%Q, (1000 + request_time 0)%Q)].
Proof.
  apply first_request_immediate. apply Qle_bool_imp_le. reflexivity.
Defined.

Lemma event_body_one_line_witness :
  (Dict.mem 101 (events start) = true /\
   stdout (fst (event_body "FSE" "https://fs-world.org/E" 101 start))
   = stdout start ++ [skip_note "FSE" 101]) \/
  (Dict.mem 101 (events start) = false /\
   exists event,
     Dict.get 101 (events (fst (event_body "FSE" "https://fs-world.org/E" 101 start)))
     = Some event /\
     stdout (fst (event_body "FSE" "https://fs-world.org/E" 101 start))
     = stdout start ++ ["FSE" +:+ "/" +:+ pretty 101%Z +:+ ": "
                        +:+ EventData.name event
                        +:+ " (" +:+ EventKind.str (EventData.kind event) +:+ ")"]).
Proof.
  apply (event_body_one_line "FSE" "https://fs-world.org/E" 101 start).
  vm_compute. reflexivity.
Defined.

Lemma series_needs_event_select_witness :
  series_body (W := world_bad) "X9" "https://fs-world.org/X/9" start
  = (fst (get (W := world_bad) "https://fs-world.org/X/9" start), Raise AssertionError).
Proof.
  apply (series_needs_event_select (W := world_bad) "X9" "https://fs-world.org/X/9" start
           (Tag "[document]" [] [NavigableString "nothing here"])); reflexivity.
Defined.

Lemma series_with_no_options_witness :
  snd (series_body (W := world_bad) "Y" "https://fs-world.org/Y" after_FSE) = Ok tt /\
  events (fst (series_body (W := world_bad) "Y" "https://fs-world.org/Y" after_FSE))
  = events after_FSE.
Proof.
  destruct (series_with_no_options (W := world_bad) "Y" "https://fs-world.org/Y" after_FSE
              (listing []) (Tag "select" [("id", AStr "WorldEvents")] []))
    as (_ & Hok & Hev & _).
  - vm_compute. reflexivity.
  - reflexivity.
  - reflexivity.
  - split; [exact Hok | exact Hev].
Defined.

End MoreExamples.
